(** * The notebook test harness: [runtest.py] and [run_notebook.py]

    A shallow embedding of the two scripts and the properties of the
    comparison routine [check_errors], of the scratch-file discipline of
    [_notebook_run], and of the two command-line entry points.

    Conventions of the embedding.
    - A Python [str] is the list of its code points ([N]); [py "..."]
      turns an ASCII literal into one.  Slicing [a[:n]] is [firstn n a],
      the operator [e in a] is [contains e a].
    - A raised exception is a value of [exn]; a computation that may
      raise returns a [result].
    - What the scripts do to the process (working directory, files,
      child processes, the two output streams) is threaded through
      explicitly as a [world]; the parts decided outside the scripts (the
      operating system, [tempfile], [nbconvert], [nbformat]) are the
      fields of a [system] record that every run takes as an argument. *)

From Stdlib Require Import String Ascii DecimalString.
From Stdlib Require Import NArith ZArith Lia Bool Orders.
From Stdlib Require Import List Permutation Sorted Sorting.Mergesort.
Import ListNotations.
Open Scope list_scope.

(* ================================================================== *)
(** * Python values *)
(* ================================================================== *)

Module Py.

(** A string is its sequence of code points. *)
Definition str := list N.

(** An ASCII literal. *)
Definition py (s : string) : str := map N_of_ascii (list_ascii_of_string s).
Arguments py s%_string_scope.

(** [str(i)] for a non-negative and for a signed integer. *)
Definition str_of_nat (i : nat) : str := py (NilEmpty.string_of_uint (Nat.to_uint i)).
Definition str_of_Z (z : Z) : str := py (NilZero.string_of_int (Z.to_int z)).

(** [a == b] on strings. *)
Fixpoint str_eqb (a b : str) : bool :=
  match a, b with
  | [], [] => true
  | c :: a', d :: b' => (c =? d)%N && str_eqb a' b'
  | _, _ => false
  end.

(** [a <= b] on strings: lexicographic on code points. *)
Fixpoint str_leb (a b : str) : bool :=
  match a, b with
  | [], _ => true
  | _ :: _, [] => false
  | c :: a', d :: b' => (c <? d)%N || ((c =? d)%N && str_leb a' b')
  end.

(** [a.startswith(e)]; the test at one offset of [e in a]. *)
Fixpoint startswith (e a : str) : bool :=
  match e, a with
  | [], _ => true
  | _ :: _, [] => false
  | c :: e', d :: a' => (c =? d)%N && startswith e' a'
  end.

(** [e in a]: [e] occurs in [a] at some offset. *)
Fixpoint contains (e a : str) : bool :=
  startswith e a ||
  match a with
  | [] => false
  | _ :: a' => contains e a'
  end.

(** The mathematical notion [contains] decides. *)
Definition Substring (e a : str) : Prop := exists p s, a = p ++ e ++ s.

(** Exceptions the two scripts can see. *)
Inductive exn : Type :=
| KeyError (key : str)
| IndexError
| OSError
| CalledProcessError (returncode : Z)
| ReadError
| AssertionError
| SystemExit (code : Z).

Inductive result (A : Type) : Type :=
| Return (a : A)
| Raise (e : exn).
Arguments Return {A} a.
Arguments Raise {A} e.

(** How [subprocess.check_call] can end: the child ran and exited with a
    return code, or it could not be started at all. *)
Inductive call_outcome : Type :=
| Exited (returncode : Z)
| SpawnFailed.

(** The exit status of the interpreter for a script that ended with [r]:
    0 when it ran to its end, the argument of [sys.exit], and 1 for any
    other uncaught exception. *)
Definition exit_status {A} (r : result A) : Z :=
  match r with
  | Return _ => 0
  | Raise (SystemExit code) => code
  | Raise _ => 1
  end.

(** [itertools.zip_longest(xs, ys, fillvalue=fill)]. *)
Fixpoint zip_longest {A} (xs ys : list A) (fill : A) : list (A * A) :=
  match xs with
  | [] => map (fun y => (fill, y)) ys
  | x :: xs' =>
      match ys with
      | [] => (x, fill) :: zip_longest xs' [] fill
      | y :: ys' => (x, y) :: zip_longest xs' ys' fill
      end
  end.

(** [enumerate(xs)], counting from [start]. *)
Fixpoint enumerate_from {A} (start : nat) (xs : list A) : list (nat * A) :=
  match xs with
  | [] => []
  | x :: xs' => (start, x) :: enumerate_from (S start) xs'
  end.
Definition enumerate {A} (xs : list A) : list (nat * A) := enumerate_from 0 xs.

(** A [dict] literal with string keys: its items, in the order written. *)
Definition dict (V : Type) := list (str * V).

(** [d[k]]. *)
Fixpoint getitem {V} (d : dict V) (k : str) : result V :=
  match d with
  | [] => Raise (KeyError k)
  | (k', v) :: d' => if str_eqb k' k then Return v else getitem d' k
  end.

(** Iterating a dict yields its keys. *)
Definition keys {V} (d : dict V) : list str := map fst d.

End Py.

(* ================================================================== *)
(** * [runtest.py]: the expectation-checked batch runner *)
(* ================================================================== *)

Module Runtest.
Import Py.

(** ** The executed notebook document, as far as the script reads it *)

(** An entry of [cell["outputs"]]: its [output_type] and, for an error,
    its [traceback], a list of strings, which may be empty.  The
    embedding covers the outputs that carry both; on an output without
    [output_type] the script raises [AttributeError], on an error
    without [traceback] it raises [KeyError], and neither is modelled. *)
Record output : Type := mkOutput {
  output_type : str;
  traceback : list str
}.

(** A cell; [outputs] is [None] when the cell has no ["outputs"] key. *)
Record cell : Type := mkCell {
  outputs : option (list output)
}.

Record notebook_node : Type := mkNotebook {
  cells : list cell
}.

(** ** What [check_errors] prints

    The three kinds of line that [check_errors] writes to [sys.stderr],
    and their text. *)
Inductive line : Type :=
| Bar
| Header (file_name : str)
| NoMatch (i : nat) (e a : str).

Definition render (l : line) : str :=
  match l with
  | Bar => repeat 61%N 100
  | Header file_name => py "Errors detected in " ++ file_name
  | NoMatch i e a =>
      py "No match for " ++ str_of_nat i ++ py "-th expected error '" ++ e
        ++ py "' got '" ++ a ++ py "'"
  end.

(** ** [check_errors] *)

(** The fill value of [zip_longest]. *)
Definition sentinel : str := py "-- No Error --".

(** [str(x['traceback'][0][:100])]; an empty traceback has no item 0. *)
Definition first_traceback (x : output) : result str :=
  match traceback x with
  | [] => Raise IndexError
  | l :: _ => Return (firstn 100 l)
  end.

(** [list(map(lambda x: ..., actual))]: the first exception ends it. *)
Fixpoint actual_tracebacks (actual : list output) : result (list str) :=
  match actual with
  | [] => Return []
  | x :: rest =>
      match first_traceback x with
      | Raise e => Raise e
      | Return a =>
          match actual_tracebacks rest with
          | Raise e => Raise e
          | Return tbs => Return (a :: tbs)
          end
      end
  end.

(** One turn of the [for] loop, on the pair of [return_value] and what
    has been printed so far. *)
Definition check_step (file_name : str) (st : bool * list line)
    (item : nat * (str * str)) : bool * list line :=
  let '(return_value, printed) := st in
  let '(i, (e, a)) := item in
  if negb (contains e a) then
    let printed :=
      if return_value then printed ++ [Bar; Header file_name] else printed in
    (false, printed ++ [NoMatch i e (firstn 100 a)])
  else st.

(** [check_errors(file_name, expected, actual)]: the value returned and
    the lines written to [sys.stderr], or the exception raised while the
    tracebacks are collected (before anything is printed). *)
Definition check_errors (file_name : str) (expected : list str)
    (actual : list output) : result (bool * list line) :=
  match actual_tracebacks actual with
  | Raise e => Raise e
  | Return tbs =>
      let '(return_value, printed) :=
        fold_left (check_step file_name)
          (enumerate (zip_longest expected tbs sentinel)) (true, []) in
      let printed := if negb return_value then printed ++ [Bar] else printed in
      Return (return_value, printed)
  end.

(** ** The expectation catalog *)

(** [l * n] on lists. *)
Definition times {A} (l : list A) (n : nat) : list A := concat (repeat l n).

Definition chisel_exception : str :=
  py "chisel3.internal.ChiselException: Exception thrown when elaborating ChiselGeneratorAnnotation".
Definition compilation_failed : str := py "Compilation Failed".
Definition not_implemented : str := py "scala.NotImplementedError".

Definition notebooks : dict (list str) := [
  (py "1_intro_to_scala.ipynb", []);
  (py "2.1_first_module.ipynb", [chisel_exception]);
  (py "2.2_comb_logic.ipynb",
     [compilation_failed] ++ [chisel_exception] ++ [chisel_exception]
       ++ [chisel_exception]);
  (py "2.3_control_flow.ipynb",
     times [not_implemented] 2 ++ [compilation_failed] ++ [not_implemented]
       ++ [compilation_failed]);
  (py "2.4_sequential_logic.ipynb", times [chisel_exception] 2);
  (py "2.5_exercise.ipynb", times [chisel_exception] 3 ++ [compilation_failed]);
  (py "2.6_chiseltest.ipynb", []);
  (py "3.1_parameters.ipynb", [py "java.util.NoSuchElementException"]);
  (py "3.2_collections.ipynb", [chisel_exception]);
  (py "3.2_interlude.ipynb", []);
  (py "3.3_higher-order_functions.ipynb",
     [not_implemented] ++ [py "java.lang.UnsupportedOperationException"]
       ++ times [not_implemented] 2 ++ [chisel_exception]);
  (py "3.4_functional_programming.ipynb",
     [not_implemented] ++ [compilation_failed] ++ [not_implemented]
       ++ [compilation_failed]);
  (py "3.5_object_oriented_programming.ipynb", [compilation_failed]);
  (py "3.6_types.ipynb",
     [py "chisel3.internal.ChiselException: Connection between sink"]
       ++ [py "Failed to elaborate Chisel circuit"]
       ++ [py "expected " ++ [34%N] ++ py ")" ++ [34%N]]
       ++ [py "scala.MatchError: ChiselExecutionFailure"]
       ++ times [compilation_failed] 5);
  (py "4.1_firrtl_ast.ipynb", []);
  (py "4.2_firrtl_ast_traversal.ipynb", []);
  (py "4.3_firrtl_common_idioms.ipynb", []);
  (py "4.4_firrtl_add_ops_per_module.ipynb", [py "FirrtlInternalException"])
].


(** ** Notions used to state the properties of [check_errors] *)

(** An actual error whose traceback has an item 0. *)
Definition has_traceback (x : output) : Prop := traceback x <> [].

(** The positions the loop flags, with the pair compared there. *)
Definition mismatches (expected tbs : list str) : list (nat * (str * str)) :=
  filter (fun item => negb (contains (fst (snd item)) (snd (snd item))))
    (enumerate (zip_longest expected tbs sentinel)).

(** The lines printed for a list of flagged positions. *)
Definition report (file_name : str) (ms : list (nat * (str * str))) : list line :=
  match ms with
  | [] => []
  | _ :: _ =>
      [Bar; Header file_name]
        ++ map (fun item => NoMatch (fst item) (fst (snd item))
                              (firstn 100 (snd (snd item)))) ms
        ++ [Bar]
  end.

(** ** [sorted] on strings

    [sorted(notebooks)] orders the keys by [<=] on strings; the merge
    sort of the standard library, instantiated at that order, stands for
    Python's (both are sorts, and a sorted list of distinct keys is
    unique). *)
Module StrOrder <: TotalLeBool.

Definition t := str.
Definition leb := str_leb.

Lemma leb_total (x y : t) : leb x y = true \/ leb y x = true.
Proof.
  unfold leb. revert y; induction x as [|c x IH]; intros [|d y]; simpl; auto.
  destruct (N.ltb_spec c d) as [Hlt|Hge]; [now left|].
  destruct (N.ltb_spec d c) as [Hlt'|Hge']; [now right|].
  assert (c = d) by lia. subst d. rewrite N.eqb_refl. simpl. apply IH.
Qed.

End StrOrder.
Module StrSort := Sort StrOrder.

Definition sorted (l : list str) : list str := StrSort.sort l.

(** ** The process and its surroundings *)

(** The state the script acts on: the working directory, the paths of the
    files that exist, the argument vectors given to
    [subprocess.check_call] so far (oldest first), and what the script
    has printed to [sys.stdout] and to [sys.stderr]. *)
Record world : Type := mkWorld {
  cwd : str;
  files : list str;
  calls : list (list str);
  stdout : list str;
  stderr : list line
}.

(** The collaborators outside the script.
    - [chdir_to c d]: the working directory after [os.chdir(d)] from [c],
      or [None] when the call raises [OSError].
    - [mkstemp_at w suffix dir]: the descriptor and absolute path of the
      file [tempfile.mkstemp(suffix=suffix, dir=dir)] creates, or [None]
      when it raises [OSError].
    - [nbconvert w args]: the files that exist after the child process,
      and how it ended; a child cannot change its parent's directory.
    - [nbformat_read w p]: the document [open(p)] and [nbformat.read]
      yield, or [None] when either raises. *)
Record system : Type := mkSystem {
  chdir_to : str -> str -> option str;
  mkstemp_at : world -> str -> option str -> option (nat * str);
  nbconvert : world -> list str -> list str * call_outcome;
  nbformat_read : world -> str -> option notebook_node
}.

(** A computation of the script: from a world to what it returns or
    raises, and the world it leaves. *)
Definition M (A : Type) : Type := world -> result A * world.

Definition ret {A} (a : A) : M A := fun w => (Return a, w).
Definition raise {A} (e : exn) : M A := fun w => (Raise e, w).
Definition bind {A B} (m : M A) (k : A -> M B) : M B :=
  fun w =>
    match m w with
    | (Return a, w') => k a w'
    | (Raise e, w') => (Raise e, w')
    end.

Notation "x <- m ;; k" := (bind m (fun x => k))
  (at level 61, m at next level, right associativity).
Notation "' pat <- m ;; k" := (bind m (fun x => match x with pat => k end))
  (at level 61, pat pattern, m at next level, right associativity).
Notation "m ;; k" := (bind m (fun _ => k))
  (at level 61, right associativity).

(** [try: body finally: final]: [final] runs whatever [body] did; an
    exception of [final] replaces the outcome of [body]. *)
Definition try_finally {A} (body : M A) (final : M unit) : M A :=
  fun w =>
    let '(r, w1) := body w in
    match final w1 with
    | (Return _, w2) => (r, w2)
    | (Raise e, w2) => (Raise e, w2)
    end.

(** [try: body except OSError: pass]. *)
Definition try_except_OSError (body : M unit) : M unit :=
  fun w =>
    match body w with
    | (Raise OSError, w1) => (Return tt, w1)
    | other => other
    end.

(** [assert b], in an interpreter that does not strip assertions. *)
Definition assert (b : bool) : M unit :=
  if b then ret tt else raise AssertionError.

(** [print(s)] and [print(..., file=sys.stderr)]. *)
Definition print (s : str) : M unit :=
  fun w => (Return tt, mkWorld (cwd w) (files w) (calls w) (stdout w ++ [s]) (stderr w)).
Definition print_err (ls : list line) : M unit :=
  fun w => (Return tt, mkWorld (cwd w) (files w) (calls w) (stdout w) (stderr w ++ ls)).

(** [os.path.split] and [os.path.basename], as [posixpath] defines them:
    [rfind1 p] is [p.rfind('/') + 1]. *)
Definition sep : N := 47.

Fixpoint rfind1 (p : str) : nat :=
  match p with
  | [] => 0
  | c :: q =>
      match rfind1 q with
      | 0 => if (c =? sep)%N then 1 else 0
      | S k => S (S k)
      end
  end.

Fixpoint lstrip_sep (p : str) : str :=
  match p with
  | [] => []
  | c :: q => if (c =? sep)%N then lstrip_sep q else p
  end.
Definition rstrip_sep (p : str) : str := rev (lstrip_sep (rev p)).

Definition os_path_split (p : str) : str * str :=
  let i := rfind1 p in
  let head := firstn i p in
  let tail := skipn i p in
  let head :=
    if negb (length head =? 0) && negb (str_eqb head (repeat sep (length head)))
    then rstrip_sep head else head in
  (head, tail).

Definition os_path_basename (p : str) : str := skipn (rfind1 p) p.

Section Run.

Variable sys : system.

Definition os_getcwd : M str := fun w => (Return (cwd w), w).

Definition os_chdir (d : str) : M unit :=
  fun w =>
    match chdir_to sys (cwd w) d with
    | Some c => (Return tt, mkWorld c (files w) (calls w) (stdout w) (stderr w))
    | None => (Raise OSError, w)
    end.

Definition tempfile_mkstemp (suffix : str) (dir : option str) : M (nat * str) :=
  fun w =>
    match mkstemp_at sys w suffix dir with
    | Some (fd, p) =>
        (Return (fd, p), mkWorld (cwd w) (p :: files w) (calls w) (stdout w) (stderr w))
    | None => (Raise OSError, w)
    end.

(** [os.close(fd)] on the descriptor [mkstemp] has just opened. *)
Definition os_close (fd : nat) : M unit := ret tt.

(** [subprocess.check_call(args, stderr=True)]: returns when the child
    exits with 0.  The child writes to the descriptors of the runner
    (with [stderr=True] its standard error is descriptor 1); what it
    writes is not recorded: [stdout] and [stderr] of the world hold the
    lines the script itself prints. *)
Definition subprocess_check_call (args : list str) : M unit :=
  fun w =>
    let '(fs, outcome) := nbconvert sys w args in
    let w' := mkWorld (cwd w) fs (calls w ++ [args]) (stdout w) (stderr w) in
    match outcome with
    | Exited 0 => (Return tt, w')
    | Exited rc => (Raise (CalledProcessError rc), w')
    | SpawnFailed => (Raise OSError, w')
    end.

(** [with open(p) as f: nbformat.read(f, ...)]. *)
Definition read_notebook (p : str) : M notebook_node :=
  fun w =>
    match nbformat_read sys w p with
    | Some nb => (Return nb, w)
    | None => (Raise ReadError, w)
    end.

(** [os.unlink(p)]: removes the file, or raises when there is none. *)
Definition os_unlink (p : str) : M unit :=
  fun w =>
    if existsb (str_eqb p) (files w) then
      (Return tt,
       mkWorld (cwd w) (filter (fun q => negb (str_eqb p q)) (files w))
         (calls w) (stdout w) (stderr w))
    else (Raise OSError, w).

(** The error outputs of a document, in document order. *)
Definition error_outputs (nb : notebook_node) : list output :=
  flat_map
    (fun c =>
       match outputs c with
       | Some outs => filter (fun o => str_eqb (output_type o) (py "error")) outs
       | None => []
       end)
    (cells nb).

Definition nbconvert_args (temp_basename notebook_path : str) : list str :=
  [py "python"; py "-m"; py "nbconvert"; py "--to"; py "notebook"; py "--execute";
   py "--allow-errors";
   py "--ExecutePreprocessor.timeout=60";
   py "--output"; temp_basename; notebook_path].

(** [_notebook_run(path)]. *)
Definition _notebook_run (path : str) : M (notebook_node * list output) :=
  let '(dirname, basename) := os_path_split path in
  original_dir <- os_getcwd ;;
  notebook_path <-
    (if 0 <? length dirname then os_chdir dirname ;; ret basename
     else ret path) ;;
  ' (fd, temp_path) <-
    tempfile_mkstemp (py ".ipynb")
      (if 0 <? length dirname then Some dirname else None) ;;
  os_close fd ;;
  let temp_basename := os_path_basename temp_path in
  try_finally
    (subprocess_check_call (nbconvert_args temp_basename notebook_path) ;;
     nb <- read_notebook temp_path ;;
     ret (nb, error_outputs nb))
    (try_except_OSError (os_unlink temp_path) ;;
     os_chdir original_dir).

(** [check_errors] as a step of the script: what it prints reaches
    [sys.stderr]. *)
Definition run_check_errors (file_name : str) (expected : list str)
    (actual : list output) : M bool :=
  match check_errors file_name expected actual with
  | Raise e => raise e
  | Return (b, printed) => print_err printed ;; ret b
  end.

(** The body of [for n in notebooks_to_run], and the loop. *)
Definition run_one (n : str) : M unit :=
  expected <- (fun w => (getitem notebooks n, w)) ;;
  ' (nb, errors) <- _notebook_run n ;;
  ok <- run_check_errors n expected errors ;;
  assert ok.

Fixpoint for_notebooks (to_run : list str) : M unit :=
  match to_run with
  | [] => ret tt
  | n :: rest => run_one n ;; for_notebooks rest
  end.

End Run.

Definition help_flag : str := py "--help".

(** The first half of the script, run with [sys.argv = argv]: the value
    of [notebooks_to_run] when the loop starts. *)
Definition notebooks_to_run (argv : list str) : M (list str) :=
  if 1 <? length argv then
    if str_eqb (nth 1 argv []) help_flag then
      print (py "Usage: " ++ nth 0 argv []
               ++ py " [notebook_name.ipynb] [notebook_name_2.ipynb] [...]") ;;
      print (py "By default, check all notebooks if notebooks are not specified.") ;;
      raise (SystemExit 0)
    else ret (skipn 1 argv)
  else ret (sorted (keys notebooks)).

(** The script. *)
Definition main (sys : system) (argv : list str) : M unit :=
  to_run <- notebooks_to_run argv ;;
  for_notebooks sys to_run.

(** ** Notions used to state the properties of the runs *)

(** The notebook argument [_notebook_run(path)] hands to [nbconvert]. *)
Definition notebook_argument (path : str) : str :=
  let '(dirname, basename) := os_path_split path in
  if 0 <? length dirname then basename else path.

(** The notebook arguments of the child processes started so far. *)
Definition executed (w : world) : list str :=
  map (fun args => last args []) (calls w).


(** ** An example of surroundings

    A system given by the directories that exist: [os.chdir] and
    [tempfile.mkstemp] resolve a relative directory against the working
    directory and raise when the result is not a directory; the child
    process leaves the files alone and ends as [outcome] says; the
    executed document reads back as [document]. *)
Definition absolute (d : str) : str -> str :=
  fun c => if startswith [sep] d then d else c ++ [sep] ++ d.

Definition example_system (dirs : list str) (outcome : call_outcome)
    (document : option notebook_node) : system :=
  mkSystem
    (fun c d =>
       if existsb (str_eqb (absolute d c)) dirs then Some (absolute d c) else None)
    (fun w suffix dir =>
       let d := match dir with
                | Some d => absolute d (cwd w)
                | None => py "/tmp"
                end in
       if existsb (str_eqb d) dirs
       then Some (3, d ++ py "/tmpk3x9_2ab" ++ suffix) else None)
    (fun w _ => (files w, outcome))
    (fun _ _ => document).

(** A course checkout in [/work] with one notebook in a subdirectory. *)
Definition example_dirs : list str := [py "/work"; py "/work/lessons"; py "/tmp"].

Definition example_world : world :=
  mkWorld (py "/work")
    [py "/work/1_intro_to_scala.ipynb"; py "/work/lessons/intro.ipynb"] [] [] [].

(** An executed document with no error output, and one whose second cell
    raised. *)
Definition clean_document : notebook_node :=
  mkNotebook [mkCell None; mkCell (Some [mkOutput (py "stream") []])].

Definition failing_document : notebook_node :=
  mkNotebook
    [mkCell (Some [mkOutput (py "execute_result") []]);
     mkCell (Some [mkOutput (py "stream") [];
                   mkOutput (py "error")
                     [py "java.lang.RuntimeException: boom"; py "  at cmd3"]])].

(** A first traceback line that carries the expected text only after
    character 100. *)
Definition late_line : str := repeat 120%N 100 ++ compilation_failed.


End Runtest.

(* ================================================================== *)
(** * [run_notebook.py]: the single-notebook executor *)
(* ================================================================== *)

Module RunNotebook.
Import Py.

(** What a run leaves behind: the argument vectors given to
    [subprocess.check_call] and the lines printed. *)
Record world : Type := mkWorld {
  calls : list (list str);
  stdout : list str
}.

Definition usage : list str :=
  [py "Usage: python run_notebook.py <notebook_name.ipynb>";
   py "Example: python run_notebook.py 1_intro_to_scala.ipynb"].

Definition bar : str := repeat 61%N 60.

Definition nbconvert_args (notebook : str) : list str :=
  [py "python"; py "-m"; py "nbconvert";
   py "--to"; py "notebook";
   py "--execute";
   py "--allow-errors";
   py "--ExecutePreprocessor.timeout=300";
   py "--inplace";
   notebook].

(** The script, run with [sys.argv = argv]; [check_call] tells how the
    child process ends.  Code points 10003 and 10007 are the check mark
    and the ballot cross of the two closing messages. *)
Definition main (check_call : list str -> call_outcome) (argv : list str)
    : result unit * world :=
  if length argv <? 2 then
    (Raise (SystemExit 1), mkWorld [] usage)
  else
    let notebook := nth 1 argv [] in
    let printed := [py "Executing notebook: " ++ notebook; bar] in
    let args := nbconvert_args notebook in
    match check_call args with
    | Exited 0 =>
        (Return tt,
         mkWorld [args]
           (printed ++ [bar; [10003%N] ++ py " Successfully executed " ++ notebook]))
    | Exited rc =>
        (Raise (SystemExit 1),
         mkWorld [args]
           (printed ++ [bar; [10007%N] ++ py " Error executing " ++ notebook;
                        py "Exit code: " ++ str_of_Z rc]))
    | SpawnFailed => (Raise OSError, mkWorld [args] printed)
    end.

End RunNotebook.

(* ================================================================== *)
(** * Properties *)
(* ================================================================== *)

Import Py.

(* Slices [a[:100]] stay folded under [simpl]. *)
#[local] Arguments firstn : simpl never.

(** ** Facts about strings *)

Lemma str_eqb_eq (a b : str) : str_eqb a b = true <-> a = b.
Proof.
  revert b; induction a as [|c a IH]; intros [|d b]; simpl; split; intro H;
    try reflexivity; try discriminate.
  - apply andb_true_iff in H as [Hc Hr].
    apply N.eqb_eq in Hc. apply IH in Hr. now subst.
  - injection H as -> ->. rewrite N.eqb_refl. simpl. now apply IH.
Qed.

Lemma str_eqb_refl (a : str) : str_eqb a a = true.
Proof. now apply str_eqb_eq. Qed.

Lemma str_eqb_neq (a b : str) : str_eqb a b = false <-> a <> b.
Proof.
  split.
  - intros H ->. rewrite str_eqb_refl in H. discriminate.
  - intro H. destruct (str_eqb a b) eqn:E; [|reflexivity].
    apply str_eqb_eq in E. contradiction.
Qed.

Lemma startswith_spec (e a : str) :
  startswith e a = true <-> exists s, a = e ++ s.
Proof.
  revert a; induction e as [|c e IH]; intros a; simpl.
  - split; [intros _; now exists a | reflexivity].
  - destruct a as [|d a].
    + split; [discriminate | intros [s Hs]; discriminate].
    + rewrite andb_true_iff, N.eqb_eq, IH. split.
      * intros [-> [s ->]]. now exists s.
      * intros [s Hs]. injection Hs as -> ->. split; [reflexivity | now exists s].
Qed.

Lemma contains_spec (e a : str) : contains e a = true <-> Substring e a.
Proof.
  unfold Substring. induction a as [|d a IH]; simpl.
  - rewrite orb_false_r, startswith_spec. split.
    + intros [s Hs]. now exists [], s.
    + intros [p [s Hs]]. destruct p as [|x p]; [|discriminate].
      now exists s.
  - rewrite orb_true_iff, startswith_spec, IH. split.
    + intros [[s Hs] | [p [s Hs]]].
      * now exists [], s.
      * exists (d :: p), s. simpl. now rewrite Hs.
    + intros [p [s Hs]]. destruct p as [|x p].
      * left. now exists s.
      * right. injection Hs as _ Hs. now exists p, s.
Qed.

Lemma contains_false (e a : str) : contains e a = false <-> ~ Substring e a.
Proof.
  rewrite <- contains_spec. destruct (contains e a); split; intro H;
    try reflexivity; try discriminate; try (intro; discriminate).
  now elim H.
Qed.

Lemma contains_empty (a : str) : contains [] a = true.
Proof. destruct a; reflexivity. Qed.


(** ** Positions of [enumerate] and [zip_longest] *)

Section Positions.

Context {A : Type}.

Lemma nth_error_enumerate_from (xs : list A) (k i : nat) :
  nth_error (enumerate_from k xs) i =
  option_map (fun x => (k + i, x)) (nth_error xs i).
Proof.
  revert k i; induction xs as [|x xs IH]; intros k [|i]; simpl; try reflexivity.
  - now rewrite Nat.add_0_r.
  - rewrite IH. now rewrite Nat.add_succ_r.
Qed.

Lemma In_enumerate_from (xs : list A) (k i : nat) (x : A) :
  In (i, x) (enumerate_from k xs) <-> k <= i /\ nth_error xs (i - k) = Some x.
Proof.
  revert k; induction xs as [|y xs IH]; intros k; simpl.
  - split; [tauto|]. intros [_ H]. destruct (i - k); discriminate.
  - rewrite IH. split.
    + intros [H | [Hle Hn]].
      * injection H as -> ->. rewrite Nat.sub_diag. split; [lia | reflexivity].
      * split; [lia|]. replace (i - k) with (S (i - S k)) by lia. exact Hn.
    + intros [Hle Hn]. destruct (i - k) as [|j] eqn:E.
      * left. injection Hn as ->. f_equal. lia.
      * right. split; [lia|]. replace (i - S k) with j by lia. exact Hn.
Qed.

Lemma nth_error_zip_longest (xs ys : list A) (fill : A) (i : nat) :
  nth_error (zip_longest xs ys fill) i =
  match nth_error xs i, nth_error ys i with
  | Some x, Some y => Some (x, y)
  | Some x, None => Some (x, fill)
  | None, Some y => Some (fill, y)
  | None, None => None
  end.
Proof.
  revert ys i; induction xs as [|x xs IH]; intros ys i.
  - simpl. rewrite nth_error_map.
    replace (nth_error (@nil A) i) with (@None A) by (now destruct i).
    now destruct (nth_error ys i).
  - destruct ys as [|y ys]; destruct i as [|i]; simpl; try reflexivity.
    + rewrite IH. now destruct i.
    + apply IH.
Qed.

End Positions.

(** ** [check_errors] is the report of the flagged positions *)

Section CheckErrors.

Import Runtest.

Variable file_name : str.

(** The loop state after the positions [ms] have been flagged. *)
Let state_after (ms : list (nat * (str * str))) : bool * list line :=
  match ms with
  | [] => (true, [])
  | _ :: _ =>
      (false,
       [Bar; Header file_name]
         ++ map (fun item => NoMatch (fst item) (fst (snd item))
                               (firstn 100 (snd (snd item)))) ms)
  end.

Lemma check_step_flagged (ms : list (nat * (str * str))) (item : nat * (str * str)) :
  check_step file_name (state_after ms) item =
  if negb (contains (fst (snd item)) (snd (snd item)))
  then state_after (ms ++ [item]) else state_after ms.
Proof.
  destruct item as [i [e a]]. simpl fst; simpl snd.
  unfold check_step.
  destruct ms as [|m ms]; simpl; destruct (contains e a); simpl; try reflexivity.
  now rewrite map_app.
Qed.

Lemma fold_check_step (items ms : list (nat * (str * str))) :
  fold_left (check_step file_name) items (state_after ms) =
  state_after
    (ms ++ filter (fun item => negb (contains (fst (snd item)) (snd (snd item)))) items).
Proof.
  revert ms; induction items as [|item items IH]; intros ms; simpl.
  - now rewrite app_nil_r.
  - rewrite check_step_flagged.
    destruct (negb (contains (fst (snd item)) (snd (snd item)))).
    + rewrite IH. now rewrite <- app_assoc.
    + apply IH.
Qed.

(** Once the tracebacks are collected, [check_errors] returns whether no
    position is flagged and prints the report of the flagged ones. *)
Lemma check_errors_report (expected : list str) (actual : list output)
    (tbs : list str) :
  actual_tracebacks actual = Return tbs ->
  check_errors file_name expected actual =
  Return (match mismatches expected tbs with [] => true | _ :: _ => false end,
          report file_name (mismatches expected tbs)).
Proof.
  intro Htb. unfold check_errors. rewrite Htb.
  change (true, @nil line) with (state_after []).
  rewrite fold_check_step. simpl app. fold (mismatches expected tbs).
  destruct (mismatches expected tbs) as [|m ms]; reflexivity.
Qed.

End CheckErrors.

(** The text of a diagnostic, as the f-string builds it. *)
Example render_no_match :
  Runtest.render (Runtest.NoMatch 12 (py "Compilation Failed") Runtest.sentinel)
  = py "No match for 12-th expected error 'Compilation Failed' got '-- No Error --'".
Proof. reflexivity. Qed.

(** ** The collected tracebacks and the flagged positions *)

Section Flagged.

Import Runtest.

Lemma actual_tracebacks_total (actual : list output) :
  Forall has_traceback actual -> exists tbs, actual_tracebacks actual = Return tbs.
Proof.
  induction 1 as [|x rest Hx _ [tbs IH]]; simpl.
  - now exists [].
  - unfold first_traceback. unfold has_traceback in Hx.
    destruct (traceback x) as [|l ls]; [contradiction|].
    rewrite IH. now exists (firstn 100 l :: tbs).
Qed.

Lemma actual_tracebacks_nth (actual : list output) (tbs : list str) :
  actual_tracebacks actual = Return tbs ->
  forall i, nth_error tbs i =
            option_map (fun x => firstn 100 (hd [] (traceback x))) (nth_error actual i).
Proof.
  revert tbs; induction actual as [|x rest IH]; intros tbs H i; simpl in H.
  - injection H as <-. now destruct i.
  - unfold first_traceback in H. destruct (traceback x) as [|l ls] eqn:Ex; [discriminate|].
    destruct (actual_tracebacks rest) as [tbs'|] eqn:Er; [|discriminate].
    injection H as <-. destruct i as [|i]; simpl.
    + now rewrite Ex.
    + now apply IH.
Qed.

Lemma actual_tracebacks_length (actual : list output) (tbs : list str) :
  actual_tracebacks actual = Return tbs -> length tbs = length actual.
Proof.
  revert tbs; induction actual as [|x rest IH]; intros tbs H; simpl in H.
  - now injection H as <-.
  - destruct (first_traceback x); [|discriminate].
    destruct (actual_tracebacks rest) as [tbs'|]; [|discriminate].
    injection H as <-. simpl. f_equal. now apply IH.
Qed.

Lemma In_mismatches (expected tbs : list str) (i : nat) (e a : str) :
  In (i, (e, a)) (mismatches expected tbs) <->
  nth_error (zip_longest expected tbs sentinel) i = Some (e, a) /\
  contains e a = false.
Proof.
  unfold mismatches, enumerate. rewrite filter_In, In_enumerate_from. simpl.
  rewrite Nat.sub_0_r, negb_true_iff. intuition lia.
Qed.

Lemma In_report (file_name : str) (ms : list (nat * (str * str)))
    (i : nat) (e a' : str) :
  In (NoMatch i e a') (report file_name ms) <->
  exists a, In (i, (e, a)) ms /\ a' = firstn 100 a.
Proof.
  unfold report. destruct ms as [|m ms].
  - simpl. split; [tauto | intros [a [[] _]]].
  - remember (m :: ms) as l eqn:El. clear El.
    rewrite !in_app_iff, in_map_iff. split.
    + intros [H | [[[j [e0 a0]] [Heq Hin]] | H]].
      * simpl in H. destruct H as [H | [H | []]]; discriminate.
      * simpl in Heq. injection Heq as -> -> <-. now exists a0.
      * simpl in H. destruct H as [H | []]; discriminate.
    + intros [a [Hin ->]]. right. left. now exists (i, (e, a)).
Qed.

Lemma no_mismatch_when_all_contained (expected tbs : list str) :
  Forall2 (fun e a => contains e a = true) expected tbs ->
  mismatches expected tbs = [].
Proof.
  intro H. unfold mismatches, enumerate. generalize 0.
  induction H as [|e a es tbs' Hea _ IH]; intro k; simpl; [reflexivity|].
  rewrite Hea. simpl. apply IH.
Qed.

(** A flagged position makes the result false and is reported. *)
Lemma flagged_position_reported (file_name : str) (expected : list str)
    (actual : list output) (tbs : list str) (i : nat) (e a : str) :
  actual_tracebacks actual = Return tbs ->
  In (i, (e, a)) (mismatches expected tbs) ->
  exists printed,
    check_errors file_name expected actual = Return (false, printed) /\
    In (NoMatch i e (firstn 100 a)) printed.
Proof.
  intros Htb Hin. rewrite (check_errors_report file_name _ _ _ Htb).
  exists (report file_name (mismatches expected tbs)). split.
  - destruct (mismatches expected tbs); [contradiction | reflexivity].
  - apply In_report. now exists a.
Qed.

End Flagged.

(** ** The comparison: matching, truncation, padding *)

Section Comparison.

Import Runtest.

(** C2.  When the expected and the actual list have equal length and, at
    every index, the expected string is a substring of the first 100
    characters of the first traceback line of the actual error,
    [check_errors] returns [True] (and prints nothing). *)
Theorem check_errors_all_contained (file_name : str) (expected : list str)
    (actual : list output) :
  Forall2
    (fun e x => exists l, hd_error (traceback x) = Some l /\
                          Substring e (firstn 100 l))
    expected actual ->
  check_errors file_name expected actual = Return (true, []).
Proof.
  intro H.
  assert (exists tbs, actual_tracebacks actual = Return tbs /\
                      Forall2 (fun e a => contains e a = true) expected tbs)
    as [tbs [Htb Hall]].
  { induction H as [|e x es xs [l [Hl Hsub]] _ [tbs [Htb Hall]]]; simpl.
    - exists []. split; [reflexivity | constructor].
    - unfold first_traceback. destruct (traceback x) as [|l' ls]; [discriminate|].
      injection Hl as ->. rewrite Htb. exists (firstn 100 l :: tbs).
      split; [reflexivity|]. constructor; [|assumption]. now apply contains_spec. }
  rewrite (check_errors_report file_name _ _ _ Htb).
  now rewrite (no_mismatch_when_all_contained _ _ Hall).
Qed.

Lemma check_errors_all_contained_witness :
  check_errors (py "4.4_firrtl_add_ops_per_module.ipynb")
    [py "FirrtlInternalException"]
    [mkOutput (py "error")
       [py "firrtl.FirrtlInternalException: Internal Error!"; py "  at firrtl"]]
  = Return (true, []).
Proof.
  apply check_errors_all_contained.
  constructor; [|constructor].
  exists (py "firrtl.FirrtlInternalException: Internal Error!").
  split; [reflexivity|]. apply contains_spec. vm_compute. reflexivity.
Defined.

(** C3.  A position is compared on the first 100 characters of the first
    traceback line only: when the expected string occurs within that
    prefix, no diagnostic is printed for the position; when it occurs in
    the full line but not within the prefix, the position is reported and
    the result is [False]. *)
Theorem check_errors_compares_prefix_only (file_name : str)
    (expected : list str) (actual : list output) (i : nat) (e : str)
    (x : output) (l : str) :
  Forall has_traceback actual ->
  nth_error expected i = Some e ->
  nth_error actual i = Some x ->
  hd_error (traceback x) = Some l ->
  exists b printed,
    check_errors file_name expected actual = Return (b, printed) /\
    (Substring e (firstn 100 l) ->
     forall e' a', ~ In (NoMatch i e' a') printed) /\
    (Substring e l -> ~ Substring e (firstn 100 l) ->
     b = false /\ In (NoMatch i e (firstn 100 l)) printed).
Proof.
  intros Hall He Hx Hl.
  destruct (actual_tracebacks_total _ Hall) as [tbs Htb].
  assert (Hzip : nth_error (zip_longest expected tbs sentinel) i =
                 Some (e, firstn 100 l)).
  { rewrite nth_error_zip_longest, He, (actual_tracebacks_nth _ _ Htb), Hx. simpl.
    destruct (traceback x); [discriminate|]. now injection Hl as ->. }
  rewrite (check_errors_report file_name _ _ _ Htb).
  eexists; eexists; split; [reflexivity|]. split.
  - intros Hsub e' a' Hin. apply In_report in Hin as [a [Hin _]].
    apply In_mismatches in Hin as [Hnth Hno]. rewrite Hzip in Hnth.
    injection Hnth as <- <-. apply contains_spec in Hsub. congruence.
  - intros _ Hnot.
    assert (Hin : In (i, (e, firstn 100 l)) (mismatches expected tbs)).
    { apply In_mismatches. split; [assumption | now apply contains_false]. }
    split.
    + destruct (mismatches expected tbs); [contradiction | reflexivity].
    + apply In_report. exists (firstn 100 l). split; [assumption|].
      rewrite firstn_firstn. reflexivity.
Qed.

Lemma check_errors_compares_prefix_only_witness :
  Substring compilation_failed late_line /\
  ~ Substring compilation_failed (firstn 100 late_line) /\
  exists b printed,
    check_errors (py "3.5_object_oriented_programming.ipynb")
      [compilation_failed] [mkOutput (py "error") [late_line]]
    = Return (b, printed) /\
    b = false /\
    In (NoMatch 0 compilation_failed (firstn 100 late_line)) printed.
Proof.
  assert (Hin : Substring compilation_failed late_line)
    by (apply contains_spec; vm_compute; reflexivity).
  assert (Hout : ~ Substring compilation_failed (firstn 100 late_line))
    by (apply contains_false; vm_compute; reflexivity).
  split; [exact Hin|]. split; [exact Hout|].
  destruct (check_errors_compares_prefix_only
              (py "3.5_object_oriented_programming.ipynb")
              [compilation_failed] [mkOutput (py "error") [late_line]]
              0 compilation_failed (mkOutput (py "error") [late_line]) late_line)
    as [b [printed [Hrun [_ Hlate]]]].
  - constructor; [discriminate | constructor].
  - reflexivity.
  - reflexivity.
  - reflexivity.
  - exists b, printed. split; [exact Hrun|]. now apply Hlate.
Defined.

(** C10.  A position whose expected signature is the empty string is
    never reported, whatever stands on the actual side, be it an error
    or the padding; so [check_errors] returns [True] on [expected = [""]]
    and [actual = []], although the lengths differ. *)
Theorem check_errors_empty_expected (file_name : str) (expected : list str)
    (actual : list output) (i : nat) :
  Forall has_traceback actual ->
  nth_error expected i = Some [] ->
  (exists b printed,
     check_errors file_name expected actual = Return (b, printed) /\
     forall e a, ~ In (NoMatch i e a) printed) /\
  check_errors file_name [[]] [] = Return (true, []).
Proof.
  intros Hall He. split; [|reflexivity].
  destruct (actual_tracebacks_total _ Hall) as [tbs Htb].
  rewrite (check_errors_report file_name _ _ _ Htb).
  eexists; eexists; split; [reflexivity|].
  intros e a Hin. apply In_report in Hin as [a0 [Hin _]].
  apply In_mismatches in Hin as [Hnth Hno].
  rewrite nth_error_zip_longest, He in Hnth.
  assert (e = []) as -> by (destruct (nth_error tbs i); congruence).
  rewrite contains_empty in Hno. discriminate.
Qed.

Lemma check_errors_empty_expected_witness :
  (exists b printed,
     check_errors (py "nb.ipynb") [compilation_failed; []]
       [mkOutput (py "error") [py "Compilation Failed"]] = Return (b, printed) /\
     forall e a, ~ In (NoMatch 1 e a) printed) /\
  check_errors (py "nb.ipynb") [[]] [] = Return (true, []).
Proof.
  apply (check_errors_empty_expected (py "nb.ipynb") [compilation_failed; []]
           [mkOutput (py "error") [py "Compilation Failed"]] 1).
  - constructor; [discriminate | constructor].
  - reflexivity.
Defined.

(** C1, as the code has it.  When the lengths differ, every actual error
    has a first traceback line, and at the first index where the shorter
    list ran out the pair does not match by accident (there the expected
    string is not a substring of the padding, or the padding is not a
    substring of the first 100 characters of the actual line),
    [check_errors] returns [False] and reports that index. *)
Theorem check_errors_length_mismatch (file_name : str) (expected : list str)
    (actual : list output) :
  Forall has_traceback actual ->
  length expected <> length actual ->
  (forall e, nth_error expected (length actual) = Some e ->
             ~ Substring e sentinel) ->
  (forall x l, nth_error actual (length expected) = Some x ->
               hd_error (traceback x) = Some l ->
               ~ Substring sentinel (firstn 100 l)) ->
  exists printed e a,
    check_errors file_name expected actual = Return (false, printed) /\
    In (NoMatch (Nat.min (length expected) (length actual)) e a) printed.
Proof.
  intros Hall Hlen Hexp Hact.
  destruct (actual_tracebacks_total _ Hall) as [tbs Htb].
  pose proof (actual_tracebacks_length _ _ Htb) as Hlt.
  pose proof (actual_tracebacks_nth _ _ Htb) as Hnth.
  destruct (Nat.lt_ge_cases (length expected) (length actual)) as [Hshort|Hlong].
  - (* the expected list ran out first *)
    rewrite Nat.min_l by lia.
    destruct (nth_error actual (length expected)) as [x|] eqn:Ex;
      [|apply nth_error_None in Ex; lia].
    pose proof (Forall_forall has_traceback actual) as [Hf _].
    pose proof (Hf Hall x (nth_error_In _ _ Ex)) as Hx. unfold has_traceback in Hx.
    destruct (traceback x) as [|l ls] eqn:El; [contradiction|].
    destruct (flagged_position_reported file_name expected actual tbs
                (length expected) sentinel (firstn 100 l) Htb)
      as [printed [Hrun Hin]].
    + apply In_mismatches. split.
      * rewrite nth_error_zip_longest, Hnth, Ex. simpl. rewrite El. simpl.
        replace (nth_error expected (length expected)) with (@None str); [reflexivity|].
        symmetry. apply nth_error_None. lia.
      * apply contains_false. apply (Hact x l); [reflexivity | now rewrite El].
    + now exists printed, sentinel, (firstn 100 (firstn 100 l)).
  - (* the actual list ran out first *)
    rewrite Nat.min_r by lia.
    destruct (nth_error expected (length actual)) as [e|] eqn:Ee;
      [|apply nth_error_None in Ee; lia].
    destruct (flagged_position_reported file_name expected actual tbs
                (length actual) e sentinel Htb)
      as [printed [Hrun Hin]].
    + apply In_mismatches. split.
      * rewrite nth_error_zip_longest, Ee.
        replace (nth_error tbs (length actual)) with (@None str); [reflexivity|].
        symmetry. apply nth_error_None. lia.
      * apply contains_false. now apply Hexp.
    + now exists printed, e, (firstn 100 sentinel).
Qed.

Lemma check_errors_length_mismatch_witness :
  exists printed e a,
    check_errors (py "1_intro_to_scala.ipynb") []
      [mkOutput (py "error") [py "java.lang.RuntimeException: boom"]]
    = Return (false, printed) /\
    In (NoMatch 0 e a) printed.
Proof.
  apply (check_errors_length_mismatch (py "1_intro_to_scala.ipynb") []
           [mkOutput (py "error") [py "java.lang.RuntimeException: boom"]]).
  - constructor; [discriminate | constructor].
  - simpl. lia.
  - intros e He. discriminate.
  - intros x l Hx Hl. injection Hx as <-. injection Hl as <-.
    apply contains_false. vm_compute. reflexivity.
Defined.

(** C1 fails as stated: ["Error"] is a non-empty expected signature and a
    substring of the padding, so one expected error against no actual
    error compares as equal. *)
Lemma check_errors_length_mismatch_accepted :
  length [py "Error"] <> length (@nil output) /\
  py "Error" <> [] /\
  Substring (py "Error") sentinel /\
  check_errors (py "nb.ipynb") [py "Error"] [] = Return (true, []).
Proof.
  split; [simpl; lia|]. split; [discriminate|]. split.
  - apply contains_spec. vm_compute. reflexivity.
  - vm_compute. reflexivity.
Qed.

End Comparison.

(** ** Runs of the batch runner *)

(** Case analysis along the branches of a run. *)
Ltac unfold_run :=
  unfold Runtest.bind, Runtest.ret, Runtest.raise, Runtest.try_finally,
    Runtest.try_except_OSError, Runtest.assert, Runtest.print_err,
    Runtest.os_getcwd, Runtest.os_chdir, Runtest.tempfile_mkstemp,
    Runtest.os_close, Runtest.subprocess_check_call, Runtest.read_notebook,
    Runtest.os_unlink in *.

Ltac branch H :=
  repeat match type of H with
         | context [match ?x with _ => _ end] =>
             lazymatch x with
             | context [match _ with _ => _ end] => fail
             | _ => destruct x eqn:?; simpl in H
             end
         end.

Ltac close_run H := injection H as <- <-; simpl.

Section Runs.

Import Runtest.

Variable sys : system.

Lemma last_nbconvert_args (temp_basename notebook_path : str) :
  last (nbconvert_args temp_basename notebook_path) [] = notebook_path.
Proof. reflexivity. Qed.

(** A run of [_notebook_run] starts at most one child process, on the
    notebook it was given, and exactly one when it returns. *)
Lemma notebook_run_executed (path : str) (w w' : world)
    (r : result (notebook_node * list output)) :
  _notebook_run sys path w = (r, w') ->
  (executed w' = executed w /\ forall v, r <> Return v) \/
  executed w' = executed w ++ [notebook_argument path].
Proof.
  unfold _notebook_run, notebook_argument, executed.
  destruct (os_path_split path) as [dirname basename].
  intro H. unfold_run. branch H; close_run H;
    try (left; split; [reflexivity | discriminate]).
  all: right; rewrite map_app; reflexivity.
Qed.

(** The comparison step prints, and does nothing else. *)
Lemma run_check_errors_world (file_name : str) (expected : list str)
    (actual : list output) (w : world) :
  run_check_errors file_name expected actual w =
  match check_errors file_name expected actual with
  | Raise e => (Raise e, w)
  | Return (b, printed) =>
      (Return b,
       mkWorld (cwd w) (files w) (calls w) (stdout w) (stderr w ++ printed))
  end.
Proof.
  unfold run_check_errors.
  destruct (check_errors file_name expected actual) as [[b printed]|e]; reflexivity.
Qed.

Lemma run_one_executed (n : str) (w w' : world) (r : result unit) :
  run_one sys n w = (r, w') ->
  (executed w' = executed w /\ r <> Return tt) \/
  executed w' = executed w ++ [notebook_argument n].
Proof.
  unfold run_one, bind at 1. destruct (getitem notebooks n) as [expected|e].
  - unfold bind at 1.
    destruct (_notebook_run sys n w) as [[[nb errors]|e] w1] eqn:Erun;
      apply notebook_run_executed in Erun.
    + destruct Erun as [[_ Hno] | Hex]; [now elim (Hno (nb, errors))|].
      unfold bind. rewrite run_check_errors_world.
      destruct (check_errors n expected errors) as [[[|] printed]|e];
        intro H; close_run H; now right.
    + intro H; close_run H. destruct Erun as [[Hex _] | Hex]; [left | now right].
      split; [assumption | discriminate].
  - intro H; close_run H. left. split; [reflexivity | discriminate].
Qed.

(** The loop over a concatenation runs the second part from where the
    first part ended, when that returned. *)
Lemma for_notebooks_app (pre rest : list str) (w : world) :
  for_notebooks sys (pre ++ rest) w =
  match for_notebooks sys pre w with
  | (Return _, w') => for_notebooks sys rest w'
  | (Raise e, w') => (Raise e, w')
  end.
Proof.
  revert w; induction pre as [|n pre IH]; intro w; simpl; [reflexivity|].
  unfold bind. destruct (run_one sys n w) as [[[]|e] w1]; [apply IH | reflexivity].
Qed.

(** The child processes of a run of the loop are started, in order and
    once each, on the notebooks of a prefix of the list; on all of them
    when the loop returns. *)
Lemma for_notebooks_executed (to_run : list str) (w w' : world) (r : result unit) :
  for_notebooks sys to_run w = (r, w') ->
  exists k,
    k <= length to_run /\
    executed w' = executed w ++ map notebook_argument (firstn k to_run) /\
    (r = Return tt -> k = length to_run).
Proof.
  revert w; induction to_run as [|n rest IH]; intros w H; simpl in H.
  - injection H as <- <-. exists 0. simpl. rewrite app_nil_r. auto.
  - unfold bind in H. destruct (run_one sys n w) as [[[]|e] w1] eqn:Eone;
      apply run_one_executed in Eone.
    + destruct Eone as [[_ Hno] | Hex]; [now elim Hno|].
      destruct (IH _ H) as [k [Hk [Hexec Hall]]]. exists (S k). cbn [firstn map length].
      rewrite Hexec, Hex, <- app_assoc. repeat split; [lia | auto].
    + injection H as <- <-. destruct Eone as [[Hex _] | Hex].
      * exists 0. cbn [firstn map]. rewrite app_nil_r.
        repeat split; [lia | assumption | discriminate].
      * exists 1. cbn [firstn map length].
        repeat split; [lia | | discriminate].
        rewrite Hex. now destruct rest.
Qed.

(** Outside the catalog, the lookup raises. *)
Lemma getitem_not_key {V} (d : dict V) (k : str) :
  ~ In k (keys d) -> getitem d k = Raise (KeyError k).
Proof.
  induction d as [|[k' v] d IH]; simpl; intro H; [reflexivity|].
  destruct (str_eqb k' k) eqn:E.
  - apply str_eqb_eq in E. tauto.
  - apply IH. tauto.
Qed.

(** C5, as the code has it.  When the loop reaches an identifier that is
    not a key of the catalog (it is in the list the loop iterates over,
    and every identifier before it ran and passed), the run raises
    [KeyError] for it, in the world the earlier notebooks left: no child
    process is started for it and no file is created. *)
Theorem unknown_notebook_raises_KeyError (argv pre : list str) (n : str)
    (rest : list str) (w0 w w' : world) :
  notebooks_to_run argv w0 = (Return (pre ++ n :: rest), w) ->
  ~ In n (keys notebooks) ->
  for_notebooks sys pre w = (Return tt, w') ->
  main sys argv w0 = (Raise (KeyError n), w') /\
  executed w' = executed w ++ map notebook_argument pre.
Proof.
  intros Hsel Hkey Hpre. split.
  - unfold main, bind. rewrite Hsel, for_notebooks_app, Hpre. simpl.
    unfold run_one, bind. now rewrite (getitem_not_key _ _ Hkey).
  - destruct (for_notebooks_executed _ _ _ _ Hpre) as [k [_ [Hex Hall]]].
    rewrite Hex, (Hall eq_refl). now rewrite firstn_all.
Qed.

(** C6.  When the comparison fails for the notebook the loop has
    reached, the run ends there with [AssertionError]: the child
    processes started are those of the notebooks up to and including that
    one, none of a later one, and standard error holds a diagnostic for
    every position of that notebook that did not match. *)
Theorem failed_comparison_aborts_run (argv pre : list str) (n : str)
    (rest : list str) (w0 w w1 w2 : world) (expected : list str)
    (nb : notebook_node) (errors : list output) (printed : list line) :
  notebooks_to_run argv w0 = (Return (pre ++ n :: rest), w) ->
  for_notebooks sys pre w = (Return tt, w1) ->
  getitem notebooks n = Return expected ->
  _notebook_run sys n w1 = (Return (nb, errors), w2) ->
  check_errors n expected errors = Return (false, printed) ->
  let final :=
    mkWorld (cwd w2) (files w2) (calls w2) (stdout w2) (stderr w2 ++ printed) in
  main sys argv w0 = (Raise AssertionError, final) /\
  executed final = executed w ++ map notebook_argument (pre ++ [n]) /\
  (forall tbs i e a,
     actual_tracebacks errors = Return tbs ->
     nth_error (zip_longest expected tbs sentinel) i = Some (e, a) ->
     ~ Substring e a ->
     In (NoMatch i e (firstn 100 a)) (stderr final)).
Proof.
  intros Hsel Hpre Hexp Hrun Hcheck final. split; [|split].
  - unfold main, bind. rewrite Hsel, for_notebooks_app, Hpre. simpl.
    unfold run_one, bind. rewrite Hexp, Hrun, run_check_errors_world, Hcheck.
    reflexivity.
  - destruct (for_notebooks_executed _ _ _ _ Hpre) as [k [_ [Hex Hall]]].
    rewrite (Hall eq_refl), firstn_all in Hex.
    destruct (notebook_run_executed _ _ _ _ Hrun) as [[_ Hno] | Hex2];
      [now elim (Hno (nb, errors))|].
    change (executed final) with (executed w2).
    now rewrite Hex2, Hex, map_app, <- app_assoc.
  - intros tbs i e a Htb Hnth Hsub. simpl. apply in_or_app. right.
    rewrite (check_errors_report n _ _ _ Htb) in Hcheck.
    injection Hcheck as _ <-. apply In_report. exists a. split; [|reflexivity].
    apply In_mismatches. split; [assumption | now apply contains_false].
Qed.

End Runs.

(** ** Runs in the example surroundings *)

Section ExampleRuns.

Import Runtest.

Lemma not_key_by_search {V} (d : dict V) (k : str) :
  existsb (str_eqb k) (keys d) = false -> ~ In k (keys d).
Proof.
  intros H Hin.
  assert (existsb (str_eqb k) (keys d) = true); [|congruence].
  apply existsb_exists. exists k. split; [assumption | apply str_eqb_refl].
Qed.

Lemma failed_comparison_aborts_run_witness :
  let sys := example_system example_dirs (Exited 0) (Some failing_document) in
  let argv :=
    [py "runtest.py"; py "1_intro_to_scala.ipynb"; py "2.6_chiseltest.ipynb"] in
  exists final,
    main sys argv example_world = (Raise AssertionError, final) /\
    executed final = [py "1_intro_to_scala.ipynb"] /\
    In (NoMatch 0 sentinel (py "java.lang.RuntimeException: boom")) (stderr final).
Proof.
  intros sys argv.
  destruct (failed_comparison_aborts_run sys argv [] (py "1_intro_to_scala.ipynb")
              [py "2.6_chiseltest.ipynb"] example_world example_world example_world
              (snd (_notebook_run sys (py "1_intro_to_scala.ipynb") example_world))
              [] failing_document (error_outputs failing_document)
              [Bar; Header (py "1_intro_to_scala.ipynb");
               NoMatch 0 sentinel (py "java.lang.RuntimeException: boom"); Bar])
    as [Hmain [Hexec Hdiag]]; try (vm_compute; reflexivity).
  eexists. split; [exact Hmain|]. split; [exact Hexec|].
  apply (Hdiag [py "java.lang.RuntimeException: boom"] 0 sentinel
           (py "java.lang.RuntimeException: boom")).
  - reflexivity.
  - reflexivity.
  - apply contains_false. vm_compute. reflexivity.
Defined.

Lemma unknown_notebook_raises_KeyError_witness :
  let sys := example_system example_dirs (Exited 0) (Some clean_document) in
  let argv :=
    [py "runtest.py"; py "1_intro_to_scala.ipynb"; py "nonexistent.ipynb"] in
  exists w',
    main sys argv example_world = (Raise (KeyError (py "nonexistent.ipynb")), w') /\
    executed w' = [py "1_intro_to_scala.ipynb"].
Proof.
  intros sys argv.
  exists (snd (for_notebooks sys [py "1_intro_to_scala.ipynb"] example_world)).
  apply (unknown_notebook_raises_KeyError sys argv [py "1_intro_to_scala.ipynb"]
           (py "nonexistent.ipynb") [] example_world example_world).
  - reflexivity.
  - apply not_key_by_search. vm_compute. reflexivity.
  - vm_compute. reflexivity.
Defined.

(** C5 fails as stated.  Neither ["--help"] nor ["nonexistent.ipynb"] is
    a key of the catalog, yet a run given the first as its first argument
    exits with status 0, and a run given the second after a notebook
    whose execution fails ends with that failure; no lookup failure is
    raised in either. *)
Lemma unknown_notebook_without_KeyError :
  ~ In help_flag (keys notebooks) /\
  fst (main (example_system example_dirs (Exited 0) (Some clean_document))
         [py "runtest.py"; help_flag] example_world)
  = Raise (SystemExit 0) /\
  ~ In (py "nonexistent.ipynb") (keys notebooks) /\
  fst (main (example_system example_dirs (Exited 1) None)
         [py "runtest.py"; py "1_intro_to_scala.ipynb"; py "nonexistent.ipynb"]
         example_world)
  = Raise (CalledProcessError 1).
Proof.
  split; [apply not_key_by_search; vm_compute; reflexivity|].
  split; [vm_compute; reflexivity|].
  split; [apply not_key_by_search; vm_compute; reflexivity|].
  vm_compute; reflexivity.
Qed.

End ExampleRuns.

(** ** The order of the runs *)

Section Order.

Import Runtest.






(** With [--help] as first argument, whatever follows, the runner prints
    the two usage lines and exits with status 0; it looks up and starts
    nothing. *)
Lemma main_help (sys : system) (prog : str) (rest : list str) (w : world) :
  main sys (prog :: help_flag :: rest) w =
  (Raise (SystemExit 0),
   mkWorld (cwd w) (files w) (calls w)
     (stdout w
        ++ [py "Usage: " ++ prog
              ++ py " [notebook_name.ipynb] [notebook_name_2.ipynb] [...]";
            py "By default, check all notebooks if notebooks are not specified."])
     (stderr w)).
Proof.
  unfold main, notebooks_to_run, bind, print, raise. simpl.
  now rewrite <- app_assoc.
Qed.


End Order.

(** ** The scratch file and the working directory *)

Section Cleanup.

Import Runtest.

Variable sys : system.




(** The first [os.chdir] and [mkstemp] come before the [try]: when the
    directory was entered and [mkstemp] raises, the run ends in the
    directory of the notebook. *)
Lemma notebook_run_mkstemp_raises (path : str) (w : world) (c : str) :
  let dirname := fst (os_path_split path) in
  let entered := mkWorld c (files w) (calls w) (stdout w) (stderr w) in
  0 < length dirname ->
  chdir_to sys (cwd w) dirname = Some c ->
  mkstemp_at sys entered (py ".ipynb") (Some dirname) = None ->
  _notebook_run sys path w = (Raise OSError, entered).
Proof.
  intros dirname entered Hlen Hcd Hmk. unfold _notebook_run.
  subst dirname. destruct (os_path_split path) as [dirname basename].
  simpl fst in *. apply Nat.ltb_lt in Hlen. rewrite Hlen.
  unfold_run. rewrite Hcd. fold entered. now rewrite Hmk.
Qed.

End Cleanup.

(** The cleanup at work: run on an absolute path, with a child process
    that fails, [_notebook_run] raises and leaves neither the scratch file
    nor a changed directory. *)
Example notebook_run_cleanup_example :
  let sys := Runtest.example_system Runtest.example_dirs (Exited 1) None in
  let run := Runtest._notebook_run sys (py "/work/lessons/intro.ipynb")
               Runtest.example_world in
  fst run = Raise (CalledProcessError 1) /\
  Runtest.files (snd run) = Runtest.files Runtest.example_world /\
  Runtest.cwd (snd run) = Runtest.cwd Runtest.example_world.
Proof. vm_compute. repeat split; reflexivity. Qed.

(** C4.  After every call of [_notebook_run], returning or raising, the
    scratch file should be gone and the working directory should be the
    one from before the call.  The code misses this on one path.  Run
    from [/work] on [lessons/intro.ipynb], it enters [/work/lessons]; there
    [mkstemp] resolves [dir="lessons"] to [/work/lessons/lessons], which
    does not exist, and raises before the [try] is entered; the run ends
    with the working directory still [/work/lessons]. *)
Theorem notebook_run_leaves_directory_changed :
  let sys := Runtest.example_system Runtest.example_dirs (Exited 0)
               (Some Runtest.clean_document) in
  let run := Runtest._notebook_run sys (py "lessons/intro.ipynb")
               Runtest.example_world in
  fst run = Raise OSError /\
  Runtest.cwd Runtest.example_world = py "/work" /\
  Runtest.cwd (snd run) = py "/work/lessons" /\
  Runtest.cwd (snd run) <> Runtest.cwd Runtest.example_world.
Proof.
  intros sys run.
  assert (Hrun : run = (Raise OSError,
                        Runtest.mkWorld (py "/work/lessons")
                          (Runtest.files Runtest.example_world) [] [] [])).
  { apply (notebook_run_mkstemp_raises sys (py "lessons/intro.ipynb")
             Runtest.example_world (py "/work/lessons"));
      vm_compute; (reflexivity || lia). }
  rewrite Hrun. repeat split. discriminate.
Qed.

(** ** The catalog *)

Section Catalog.

Import Runtest.

Lemma short_signature_in_prefix (e rest : str) :
  length e <= 100 -> Substring e (firstn 100 (e ++ rest)).
Proof.
  intro Hlen. exists [], (firstn (100 - length e) rest). simpl.
  rewrite firstn_app. f_equal. now apply firstn_all2.
Qed.

(** C9.  Every expected signature of the catalog has at most 100
    characters; hence each one is found in the 100-character prefix of
    any line that starts with it: truncation alone does not make a
    catalog entry unmatchable. *)
Theorem catalog_signatures_within_limit :
  Forall
    (fun entry =>
       Forall
         (fun e => length e <= 100 /\
                   forall rest, Substring e (firstn 100 (e ++ rest)))
         (snd entry))
    notebooks.
Proof.
  assert (Hall : forallb (fun entry => forallb (fun e => length e <=? 100) (snd entry))
                   notebooks = true) by (vm_compute; reflexivity).
  rewrite forallb_forall in Hall. apply Forall_forall. intros entry Hentry.
  pose proof (Hall entry Hentry) as He. rewrite forallb_forall in He.
  apply Forall_forall. intros e Hin. apply He, Nat.leb_le in Hin.
  split; [assumption|]. intro rest. now apply short_signature_in_prefix.
Qed.

(** No signature of the catalog is empty or occurs in the padding: for
    the compiled-in expectations, a missing actual error never matches. *)
Lemma catalog_signatures_not_in_padding :
  Forall
    (fun entry => Forall (fun e => e <> [] /\ ~ Substring e sentinel) (snd entry))
    notebooks.
Proof.
  assert (Hall : forallb (fun entry => forallb (fun e => negb (contains e sentinel))
                                         (snd entry))
                   notebooks = true) by (vm_compute; reflexivity).
  rewrite forallb_forall in Hall. apply Forall_forall. intros entry Hentry.
  pose proof (Hall entry Hentry) as He. rewrite forallb_forall in He.
  apply Forall_forall. intros e Hin. apply He, negb_true_iff in Hin.
  split.
  - intros ->. now rewrite contains_empty in Hin.
  - now apply contains_false.
Qed.

End Catalog.

(** ** The single-notebook executor *)

Section SingleNotebook.

Import RunNotebook.

Variable check_call : list str -> call_outcome.

(** C8.  Without a notebook argument the executor prints its usage,
    starts no child process and exits with status 1; with one, it starts
    [nbconvert] once, with [--allow-errors], and exits with status 1 when
    the child reports a non-zero return code and with status 0 when the
    child returns 0. *)
Theorem run_notebook_exit_status :
  (forall argv : list str,
     length argv < 2 ->
     exit_status (fst (main check_call argv)) = 1%Z /\
     stdout (snd (main check_call argv)) = usage /\
     calls (snd (main check_call argv)) = []) /\
  (forall (argv : list str) (rc : Z),
     2 <= length argv ->
     check_call (nbconvert_args (nth 1 argv [])) = Exited rc ->
     rc <> 0%Z ->
     exit_status (fst (main check_call argv)) = 1%Z /\
     calls (snd (main check_call argv)) = [nbconvert_args (nth 1 argv [])]) /\
  (forall argv : list str,
     2 <= length argv ->
     check_call (nbconvert_args (nth 1 argv [])) = Exited 0 ->
     exit_status (fst (main check_call argv)) = 0%Z /\
     calls (snd (main check_call argv)) = [nbconvert_args (nth 1 argv [])]) /\
  (forall notebook : str, In (py "--allow-errors") (nbconvert_args notebook)).
Proof.
  split; [|split; [|split]].
  - intros argv Hlen. unfold main.
    destruct (Nat.ltb_spec (length argv) 2); [auto | lia].
  - intros argv rc Hlen Hcall Hrc. unfold main. cbv zeta.
    destruct (Nat.ltb_spec (length argv) 2); [lia|]. rewrite Hcall.
    destruct rc; [contradiction | auto | auto].
  - intros argv Hlen Hcall. unfold main. cbv zeta.
    destruct (Nat.ltb_spec (length argv) 2); [lia|]. rewrite Hcall. auto.
  - intro notebook. simpl. tauto.
Qed.

End SingleNotebook.

Lemma run_notebook_exit_status_witness :
  exit_status (fst (RunNotebook.main (fun _ => Exited 0) [py "run_notebook.py"])) = 1%Z /\
  exit_status
    (fst (RunNotebook.main (fun _ => Exited 2)
            [py "run_notebook.py"; py "1_intro_to_scala.ipynb"])) = 1%Z /\
  exit_status
    (fst (RunNotebook.main (fun _ => Exited 0)
            [py "run_notebook.py"; py "1_intro_to_scala.ipynb"])) = 0%Z.
Proof.
  split; [|split].
  - destruct (run_notebook_exit_status (fun _ => Exited 0)) as [Husage _].
    apply (Husage [py "run_notebook.py"]). simpl. lia.
  - destruct (run_notebook_exit_status (fun _ => Exited 2)) as [_ [Hfail _]].
    apply (Hfail [py "run_notebook.py"; py "1_intro_to_scala.ipynb"] 2%Z).
    + simpl. lia.
    + reflexivity.
    + discriminate.
  - destruct (run_notebook_exit_status (fun _ => Exited 0)) as [_ [_ [Hok _]]].
    apply (Hok [py "run_notebook.py"; py "1_intro_to_scala.ipynb"]).
    + simpl. lia.
    + reflexivity.
Defined.

(* ================================================================== *)
(** * Further properties of the comparison *)
(* ================================================================== *)

Section ComparisonValue.

Import Runtest.

Lemma actual_tracebacks_map (actual : list output) :
  Forall has_traceback actual ->
  actual_tracebacks actual =
  Return (map (fun x => firstn 100 (hd [] (traceback x))) actual).
Proof.
  induction 1 as [|x rest Hx _ IH]; simpl; [reflexivity|].
  unfold first_traceback. unfold has_traceback in Hx.
  destruct (traceback x) as [|l ls]; [contradiction|]. now rewrite IH.
Qed.

Lemma actual_tracebacks_returns (actual : list output) (tbs : list str) :
  actual_tracebacks actual = Return tbs -> Forall has_traceback actual.
Proof.
  revert tbs; induction actual as [|x rest IH]; intros tbs H; [constructor|].
  simpl in H. unfold first_traceback in H.
  destruct (traceback x) as [|l ls] eqn:Ex; [discriminate|].
  destruct (actual_tracebacks rest) as [tbs'|]; [|discriminate].
  constructor; [|now apply (IH tbs')]. unfold has_traceback. now rewrite Ex.
Qed.

Lemma actual_tracebacks_raises (actual : list output) (e : exn) :
  actual_tracebacks actual = Raise e ->
  e = IndexError /\ Exists (fun x => traceback x = []) actual.
Proof.
  induction actual as [|x rest IH]; simpl; [discriminate|].
  unfold first_traceback. destruct (traceback x) as [|l ls] eqn:Ex.
  - intro H. injection H as <-. split; [reflexivity | now constructor].
  - destruct (actual_tracebacks rest) as [tbs|e']; [discriminate|].
    intro H. injection H as ->. destruct (IH eq_refl) as [-> Hex].
    split; [reflexivity | now apply Exists_cons_tl].
Qed.

Lemma check_errors_tracebacks (file_name : str) (expected : list str)
    (actual : list output) (b : bool) (printed : list line) :
  check_errors file_name expected actual = Return (b, printed) ->
  exists tbs, actual_tracebacks actual = Return tbs.
Proof.
  unfold check_errors. destruct (actual_tracebacks actual) as [tbs|e];
    [now exists tbs | discriminate].
Qed.

Lemma none_flagged_forallb {A : Type} (g : A -> bool) (xs : list A) (k : nat) :
  match filter (fun item => negb (g (snd item))) (enumerate_from k xs) with
  | [] => true
  | _ :: _ => false
  end = forallb g xs.
Proof.
  revert k; induction xs as [|x xs IH]; intro k; simpl; [reflexivity|].
  destruct (g x); simpl; [apply IH | reflexivity].
Qed.

(** The value of [check_errors] once the tracebacks are collected. *)
Lemma check_errors_forallb (file_name : str) (expected : list str)
    (actual : list output) (tbs : list str) :
  actual_tracebacks actual = Return tbs ->
  exists printed,
    check_errors file_name expected actual =
    Return (forallb (fun p => contains (fst p) (snd p))
              (zip_longest expected tbs sentinel), printed).
Proof.
  intro Htb. rewrite (check_errors_report file_name _ _ _ Htb).
  eexists. f_equal. f_equal.
  apply (none_flagged_forallb (fun p : str * str => contains (fst p) (snd p))).
Qed.

Lemma length_zip_longest {A : Type} (xs ys : list A) (fill : A) :
  length (zip_longest xs ys fill) = Nat.max (length xs) (length ys).
Proof.
  revert ys; induction xs as [|x xs IH]; intros ys; simpl.
  - now rewrite length_map.
  - destruct ys as [|y ys]; simpl; f_equal; rewrite IH; [now destruct xs | reflexivity].
Qed.

Lemma zip_longest_app {A : Type} (xs1 xs2 ys1 ys2 : list A) (fill : A) :
  length xs1 = length ys1 ->
  zip_longest (xs1 ++ xs2) (ys1 ++ ys2) fill =
  zip_longest xs1 ys1 fill ++ zip_longest xs2 ys2 fill.
Proof.
  revert ys1; induction xs1 as [|x xs1 IH]; intros [|y ys1] Hlen;
    try discriminate; simpl; [reflexivity|].
  f_equal. apply IH. now injection Hlen.
Qed.

Lemma flagged_indices_increase {A : Type} (p : nat * A -> bool) (xs : list A)
    (k : nat) :
  StronglySorted lt (map fst (filter p (enumerate_from k xs))).
Proof.
  revert k; induction xs as [|x xs IH]; intro k; simpl; [constructor|].
  destruct (p (k, x)); [|apply IH]. simpl. constructor; [apply IH|].
  apply Forall_forall. intros j Hj.
  apply in_map_iff in Hj as [[j' y] [<- Hin]].
  apply filter_In in Hin as [Hin _]. apply In_enumerate_from in Hin. simpl. lia.
Qed.

(** X1.  When every actual error has a first traceback line,
    [check_errors] returns the conjunction, over the positions of the two
    lists padded to equal length, of the test that the expected string
    occurs in the first 100 characters of the actual line. *)
Theorem check_errors_value (file_name : str) (expected : list str)
    (actual : list output) :
  Forall has_traceback actual ->
  exists printed,
    check_errors file_name expected actual =
    Return
      (forallb (fun p => contains (fst p) (snd p))
         (zip_longest expected
            (map (fun x => firstn 100 (hd [] (traceback x))) actual) sentinel),
       printed).
Proof.
  intro Hall. apply check_errors_forallb. now apply actual_tracebacks_map.
Qed.

Lemma check_errors_value_witness :
  exists printed,
    check_errors (py "2.5_exercise.ipynb") [chisel_exception; compilation_failed]
      [mkOutput (py "error") [chisel_exception ++ py ": boom"];
       mkOutput (py "error") [py "java.lang.RuntimeException"]]
    = Return
        (forallb (fun p => contains (fst p) (snd p))
           [(chisel_exception, firstn 100 (chisel_exception ++ py ": boom"));
            (compilation_failed, firstn 100 (py "java.lang.RuntimeException"))],
         printed).
Proof.
  apply (check_errors_value (py "2.5_exercise.ipynb")
           [chisel_exception; compilation_failed]
           [mkOutput (py "error") [chisel_exception ++ py ": boom"];
            mkOutput (py "error") [py "java.lang.RuntimeException"]]).
  repeat constructor; discriminate.
Defined.

(** X2.  What [check_errors] prints.  The flagged positions are exactly
    the positions of the two lists, padded to equal length, at which the
    expected string does not occur in the first 100 characters of the
    actual line.  [check_errors] returns [True] and prints nothing when
    there is none; otherwise it returns [False] and prints a bar and the
    header once, then one diagnostic for each flagged position, in
    increasing order of position, then a closing bar. *)
Theorem check_errors_output_shape (file_name : str) (expected : list str)
    (actual : list output) (b : bool) (printed : list line) :
  check_errors file_name expected actual = Return (b, printed) ->
  exists ms : list (nat * (str * str)),
    (forall i e a,
       In (i, (e, a)) ms <->
       nth_error
         (zip_longest expected
            (map (fun x => firstn 100 (hd [] (traceback x))) actual) sentinel) i
       = Some (e, a) /\
       ~ Substring e a) /\
    StronglySorted lt (map fst ms) /\
    Forall (fun m => fst m < Nat.max (length expected) (length actual)) ms /\
    b = match ms with [] => true | _ :: _ => false end /\
    printed =
      match ms with
      | [] => []
      | _ :: _ =>
          [Bar; Header file_name]
            ++ map (fun m => NoMatch (fst m) (fst (snd m))
                               (firstn 100 (snd (snd m)))) ms
            ++ [Bar]
      end.
Proof.
  intro H. destruct (check_errors_tracebacks _ _ _ _ _ H) as [tbs Htb].
  rewrite (check_errors_report file_name _ _ _ Htb) in H.
  injection H as <- <-.
  pose proof (actual_tracebacks_length _ _ Htb) as Hlen.
  rewrite (actual_tracebacks_map _ (actual_tracebacks_returns _ _ Htb)) in Htb.
  injection Htb as <-.
  exists (mismatches expected
            (map (fun x => firstn 100 (hd [] (traceback x))) actual)).
  split; [|split; [|split; [|split]]].
  - intros i e a. rewrite In_mismatches, contains_false. reflexivity.
  - apply flagged_indices_increase.
  - apply Forall_forall. intros [i [e a]] Hin. simpl.
    apply In_mismatches in Hin as [Hnth _].
    assert (Hlt : i < length
                        (zip_longest expected
                           (map (fun x => firstn 100 (hd [] (traceback x))) actual)
                           sentinel))
      by (apply nth_error_Some; congruence).
    now rewrite length_zip_longest, Hlen in Hlt.
  - reflexivity.
  - reflexivity.
Qed.

Lemma check_errors_output_shape_witness :
  exists ms : list (nat * (str * str)),
    (forall i e a,
       In (i, (e, a)) ms <->
       nth_error
         [(not_implemented, firstn 100 (py "scala.NotImplementedError"));
          (compilation_failed, firstn 100 (py "scala.NotImplementedError"))] i
       = Some (e, a) /\
       ~ Substring e a) /\
    StronglySorted lt (map fst ms) /\
    Forall (fun m => fst m < 2) ms /\
    false = match ms with [] => true | _ :: _ => false end /\
    [Bar; Header (py "nb.ipynb");
     NoMatch 1 compilation_failed (py "scala.NotImplementedError"); Bar] =
      match ms with
      | [] => []
      | _ :: _ =>
          [Bar; Header (py "nb.ipynb")]
            ++ map (fun m => NoMatch (fst m) (fst (snd m))
                               (firstn 100 (snd (snd m)))) ms
            ++ [Bar]
      end.
Proof.
  apply (check_errors_output_shape (py "nb.ipynb")
           [not_implemented; compilation_failed]
           [mkOutput (py "error") [py "scala.NotImplementedError"];
            mkOutput (py "error") [py "scala.NotImplementedError"]]
           false
           [Bar; Header (py "nb.ipynb");
            NoMatch 1 compilation_failed (py "scala.NotImplementedError"); Bar]).
  vm_compute. reflexivity.
Defined.

(** For the errors of the model, which all carry a traceback list,
    collecting the tracebacks is the only step of [check_errors] that can
    raise. *)
Lemma check_errors_raise_cases (file_name : str) (expected : list str)
    (actual : list output) (e : exn) :
  check_errors file_name expected actual = Raise e ->
  e = IndexError /\ Exists (fun x => traceback x = []) actual.
Proof.
  intro H. unfold check_errors in H.
  destruct (actual_tracebacks actual) as [tbs|e'] eqn:Htb.
  - destruct (fold_left _ _ _); discriminate.
  - injection H as ->. now apply actual_tracebacks_raises.
Qed.

(** X3.  An empty traceback stops the comparison before it starts:
    [check_errors] raises [IndexError] exactly when some actual error has
    an empty traceback list, whatever is expected, and returns exactly
    when every actual error has a first traceback line. *)
Theorem check_errors_raises (file_name : str) (expected : list str)
    (actual : list output) :
  (check_errors file_name expected actual = Raise IndexError <->
   Exists (fun x => traceback x = []) actual) /\
  ((exists b printed, check_errors file_name expected actual = Return (b, printed)) <->
   Forall has_traceback actual).
Proof.
  split; split.
  - intro H. now apply (check_errors_raise_cases _ _ _ _ H).
  - intro Hex. unfold check_errors.
    destruct (actual_tracebacks actual) as [tbs|e] eqn:Htb.
    + apply actual_tracebacks_returns in Htb. exfalso.
      apply Exists_exists in Hex as [x [Hin Hx]].
      rewrite Forall_forall in Htb. now apply (Htb x Hin).
    + now destruct (actual_tracebacks_raises _ _ Htb) as [-> _].
  - intros [b [printed H]]. destruct (check_errors_tracebacks _ _ _ _ _ H) as [tbs Htb].
    now apply (actual_tracebacks_returns _ _ Htb).
  - intro Hall. destruct (actual_tracebacks_total _ Hall) as [tbs Htb].
    rewrite (check_errors_report file_name _ _ _ Htb). eauto.
Qed.

End ComparisonValue.

Section ComparisonStructure.

Import Runtest.

Lemma first_traceback_prefix (x : output) :
  first_traceback x =
  match option_map (firstn 100) (hd_error (traceback x)) with
  | Some a => Return a
  | None => Raise IndexError
  end.
Proof. unfold first_traceback. now destruct (traceback x). Qed.

(** X4.  [check_errors] reads nothing of an actual error but the first
    100 characters of its first traceback line: two lists of errors that
    agree on those give the same result and the same output. *)
Theorem check_errors_depends_on_prefix (file_name : str) (expected : list str)
    (actual actual' : list output) :
  Forall2
    (fun x y => option_map (firstn 100) (hd_error (traceback x)) =
                option_map (firstn 100) (hd_error (traceback y)))
    actual actual' ->
  check_errors file_name expected actual = check_errors file_name expected actual'.
Proof.
  intro H.
  assert (Htb : actual_tracebacks actual = actual_tracebacks actual').
  { induction H as [|x y xs ys Hxy _ IH]; simpl; [reflexivity|].
    now rewrite !first_traceback_prefix, Hxy, IH. }
  unfold check_errors. now rewrite Htb.
Qed.

Lemma check_errors_depends_on_prefix_witness :
  check_errors (py "nb.ipynb") [compilation_failed]
    [mkOutput (py "error") [py "Compilation Failed"; py "cmd3.sc:1: not found"]]
  = check_errors (py "nb.ipynb") [compilation_failed]
      [mkOutput (py "stream") [py "Compilation Failed"]].
Proof.
  apply check_errors_depends_on_prefix.
  constructor; [reflexivity | constructor].
Defined.

(** X5.  Comparing in two parts: when the first expected part is as long
    as the first actual part, the comparison of the concatenated lists
    returns the conjunction of the results of the two parts. *)
Theorem check_errors_app (file_name : str) (expected1 expected2 : list str)
    (actual1 actual2 : list output) (b1 b2 : bool) (printed1 printed2 : list line) :
  length expected1 = length actual1 ->
  check_errors file_name expected1 actual1 = Return (b1, printed1) ->
  check_errors file_name expected2 actual2 = Return (b2, printed2) ->
  exists printed,
    check_errors file_name (expected1 ++ expected2) (actual1 ++ actual2) =
    Return (b1 && b2, printed).
Proof.
  intros Hlen H1 H2.
  destruct (check_errors_tracebacks _ _ _ _ _ H1) as [tbs1 Htb1].
  destruct (check_errors_tracebacks _ _ _ _ _ H2) as [tbs2 Htb2].
  pose proof (actual_tracebacks_returns _ _ Htb1) as Hall1.
  pose proof (actual_tracebacks_returns _ _ Htb2) as Hall2.
  rewrite (actual_tracebacks_map _ Hall1) in Htb1. injection Htb1 as <-.
  rewrite (actual_tracebacks_map _ Hall2) in Htb2. injection Htb2 as <-.
  destruct (check_errors_forallb file_name expected1 _ _ (actual_tracebacks_map _ Hall1))
    as [p1 Hv1].
  destruct (check_errors_forallb file_name expected2 _ _ (actual_tracebacks_map _ Hall2))
    as [p2 Hv2].
  rewrite H1 in Hv1. injection Hv1 as -> _.
  rewrite H2 in Hv2. injection Hv2 as -> _.
  assert (Hall : Forall has_traceback (actual1 ++ actual2))
    by (apply Forall_app; now split).
  destruct (check_errors_forallb file_name (expected1 ++ expected2) _ _
              (actual_tracebacks_map _ Hall)) as [p Hv].
  exists p. rewrite Hv. f_equal. f_equal.
  rewrite map_app, zip_longest_app by now rewrite length_map.
  apply forallb_app.
Qed.

Lemma check_errors_app_witness :
  exists printed,
    check_errors (py "nb.ipynb") ([not_implemented] ++ [compilation_failed])
      ([mkOutput (py "error") [py "scala.NotImplementedError: an implementation is missing"]]
         ++ [mkOutput (py "error") [py "java.lang.RuntimeException"]])
    = Return (true && false, printed).
Proof.
  eapply (check_errors_app (py "nb.ipynb") [not_implemented] [compilation_failed]
            [mkOutput (py "error")
               [py "scala.NotImplementedError: an implementation is missing"]]
            [mkOutput (py "error") [py "java.lang.RuntimeException"]]).
  - reflexivity.
  - vm_compute. reflexivity.
  - vm_compute. reflexivity.
Defined.

(** X6.  A [True] result is earned position by position: when
    [check_errors] returns [True], at every index present in both lists
    the actual error has a first traceback line and the expected string
    occurs in its first 100 characters. *)
Theorem check_errors_true_positions (file_name : str) (expected : list str)
    (actual : list output) (printed : list line) (i : nat) (e : str) (x : output) :
  check_errors file_name expected actual = Return (true, printed) ->
  nth_error expected i = Some e ->
  nth_error actual i = Some x ->
  exists l, hd_error (traceback x) = Some l /\ Substring e (firstn 100 l).
Proof.
  intros H He Hx.
  destruct (check_errors_tracebacks _ _ _ _ _ H) as [tbs Htb].
  pose proof (actual_tracebacks_returns _ _ Htb) as Hall.
  rewrite Forall_forall in Hall.
  pose proof (Hall x (nth_error_In _ _ Hx)) as Hhas. unfold has_traceback in Hhas.
  destruct (traceback x) as [|l ls] eqn:El; [contradiction|].
  exists l. split; [reflexivity|]. apply contains_spec.
  destruct (contains e (firstn 100 l)) eqn:Ec; [reflexivity|]. exfalso.
  rewrite (check_errors_report file_name _ _ _ Htb) in H.
  assert (Hin : In (i, (e, firstn 100 l)) (mismatches expected tbs)).
  { apply In_mismatches. split; [|assumption].
    rewrite nth_error_zip_longest, He, (actual_tracebacks_nth _ _ Htb), Hx. simpl.
    now rewrite El. }
  destruct (mismatches expected tbs); [contradiction | discriminate].
Qed.

Lemma check_errors_true_positions_witness :
  exists l,
    hd_error [py "firrtl.FirrtlInternalException: Internal Error!"] = Some l /\
    Substring (py "FirrtlInternalException") (firstn 100 l).
Proof.
  apply (check_errors_true_positions (py "4.4_firrtl_add_ops_per_module.ipynb")
           [py "FirrtlInternalException"]
           [mkOutput (py "error") [py "firrtl.FirrtlInternalException: Internal Error!"]]
           [] 0 (py "FirrtlInternalException")
           (mkOutput (py "error") [py "firrtl.FirrtlInternalException: Internal Error!"])).
  - vm_compute. reflexivity.
  - reflexivity.
  - reflexivity.
Defined.

End ComparisonStructure.

(* ================================================================== *)
(** * Further properties of [_notebook_run] *)
(* ================================================================== *)

Section ErrorOutputs.

Import Runtest.

(** X7.  The errors [_notebook_run] collects are the outputs of the
    document, cell after cell and in the order they have in their cell,
    with those whose kind is not ["error"] left out and nothing else
    changed; a cell without outputs contributes nothing.  Hence an output
    is collected exactly when it is an error output of some cell, and the
    errors of the cells [cs1 ++ cs2] are those of [cs1] followed by those
    of [cs2]. *)
Theorem error_outputs_spec :
  (forall nb : notebook_node,
     error_outputs nb =
     filter (fun o => str_eqb (output_type o) (py "error"))
       (flat_map (fun c => match outputs c with Some outs => outs | None => [] end)
          (cells nb))) /\
  (forall (nb : notebook_node) (o : output),
     In o (error_outputs nb) <->
     exists c outs,
       In c (cells nb) /\ outputs c = Some outs /\ In o outs /\
       output_type o = py "error") /\
  (forall cs1 cs2 : list cell,
     error_outputs (mkNotebook (cs1 ++ cs2)) =
     error_outputs (mkNotebook cs1) ++ error_outputs (mkNotebook cs2)).
Proof.
  split; [|split].
  - intros [cs]. unfold error_outputs. simpl.
    induction cs as [|c cs IH]; simpl; [reflexivity|].
    rewrite filter_app, IH. now destruct (outputs c).
  - intros nb o. unfold error_outputs. rewrite in_flat_map. split.
    + intros [c [Hc Ho]]. destruct (outputs c) as [outs|] eqn:Eo; [|contradiction].
      apply filter_In in Ho as [Ho Ht]. apply str_eqb_eq in Ht.
      now exists c, outs.
    + intros [c [outs [Hc [Eo [Ho Ht]]]]]. exists c. split; [assumption|].
      rewrite Eo. apply filter_In. split; [assumption | now apply str_eqb_eq].
  - intros cs1 cs2. unfold error_outputs. simpl. apply flat_map_app.
Qed.

End ErrorOutputs.

Section NotebookRun.

Import Runtest.

Variable sys : system.

(** X8.  [_notebook_run] returns only along one path: it entered the
    directory of the notebook if the path names one, [mkstemp] gave it a
    scratch file there, the child process started next, on the notebook
    and with that file as output, exited with 0, and the scratch file
    read back afterwards, in the world the child left, as a document.  It
    returns that document with its error outputs, having started that
    one child process. *)
Theorem notebook_run_returns (path : str) (w w' : world) (nb : notebook_node)
    (errors : list output) :
  _notebook_run sys path w = (Return (nb, errors), w') ->
  exists (w1 : world) (fd : nat) (temp_path : str) (fs : list str),
    let dirname := fst (os_path_split path) in
    let args :=
      nbconvert_args (os_path_basename temp_path) (notebook_argument path) in
    let allocated :=
      mkWorld (cwd w1) (temp_path :: files w1) (calls w1) (stdout w1) (stderr w1) in
    let after_child :=
      mkWorld (cwd w1) fs (calls w1 ++ [args]) (stdout w1) (stderr w1) in
    ((length dirname = 0 /\ w1 = w) \/
     (0 < length dirname /\
      exists c, chdir_to sys (cwd w) dirname = Some c /\
                w1 = mkWorld c (files w) (calls w) (stdout w) (stderr w))) /\
    mkstemp_at sys w1 (py ".ipynb")
      (if 0 <? length dirname then Some dirname else None)
    = Some (fd, temp_path) /\
    nbconvert sys allocated args = (fs, Exited 0) /\
    nbformat_read sys after_child temp_path = Some nb /\
    errors = error_outputs nb /\
    calls w' = calls w ++ [args].
Proof.
  unfold _notebook_run, notebook_argument.
  destruct (os_path_split path) as [dirname basename]. simpl fst.
  intro H. unfold_run. branch H; try discriminate H;
    injection H as <- <- <-; subst;
    do 4 eexists; cbv zeta;
    (split;
     [ first
         [ left; split;
           [ match goal with
             | E : (0 <? length _) = false |- _ => apply Nat.ltb_ge in E; lia
             end
           | reflexivity ]
         | right; split;
           [ match goal with
             | E : (0 <? length _) = true |- _ => now apply Nat.ltb_lt in E
             end
           | eexists; split; [first [eassumption | reflexivity] | reflexivity] ] ]
     | ]);
    repeat first [ split | eassumption | reflexivity ].
Qed.

(** Paths without a separator have no directory part. *)
Lemma rfind1_no_sep (p : str) : ~ In sep p -> rfind1 p = 0.
Proof.
  induction p as [|c q IH]; simpl; intro H; [reflexivity|].
  rewrite IH by tauto. destruct (N.eqb_spec c sep); [|reflexivity].
  subst c. tauto.
Qed.

Lemma os_path_split_no_sep (p : str) : ~ In sep p -> os_path_split p = ([], p).
Proof. intro H. unfold os_path_split. now rewrite (rfind1_no_sep _ H). Qed.

(** X9.  On a path without a separator [_notebook_run] changes directory
    only to go back: when going back to the starting directory succeeds,
    the run ends in the starting directory however it ends, also when
    [mkstemp] raises. *)
Theorem notebook_run_bare_name_directory (path : str) (w w' : world)
    (r : result (notebook_node * list output)) :
  ~ In sep path ->
  (forall c, chdir_to sys c (cwd w) = Some (cwd w)) ->
  _notebook_run sys path w = (r, w') ->
  cwd w' = cwd w.
Proof.
  intros Hbare Hback. unfold _notebook_run.
  rewrite (os_path_split_no_sep _ Hbare). simpl.
  intro H. unfold_run. branch H;
    repeat match goal with
           | E : chdir_to sys _ (cwd w) = _ |- _ =>
               rewrite Hback in E; first [discriminate E | injection E as <-]
           end;
    injection H as <- <-; reflexivity.
Qed.



End NotebookRun.

Section NotebookRunExamples.

Import Runtest.

Lemma notebook_run_returns_witness :
  let sys := example_system example_dirs (Exited 0) (Some failing_document) in
  let run := _notebook_run sys (py "/work/lessons/intro.ipynb") example_world in
  fst run =
    Return (failing_document,
            [mkOutput (py "error")
               [py "java.lang.RuntimeException: boom"; py "  at cmd3"]]) /\
  exists (w1 : world) (fd : nat) (temp_path : str) (fs : list str),
    let args := nbconvert_args (os_path_basename temp_path) (py "intro.ipynb") in
    w1 = mkWorld (py "/work/lessons") (files example_world) [] [] [] /\
    mkstemp_at sys w1 (py ".ipynb") (Some (py "/work/lessons")) = Some (fd, temp_path) /\
    nbconvert sys
      (mkWorld (cwd w1) (temp_path :: files w1) (calls w1) (stdout w1) (stderr w1))
      args = (fs, Exited 0) /\
    nbformat_read sys
      (mkWorld (cwd w1) fs (calls w1 ++ [args]) (stdout w1) (stderr w1)) temp_path
    = Some failing_document /\
    calls (snd run) = [args].
Proof.
  intros sys run.
  assert (H : run =
              (Return (failing_document,
                       [mkOutput (py "error")
                          [py "java.lang.RuntimeException: boom"; py "  at cmd3"]]),
               snd run)) by (vm_compute; reflexivity).
  split; [now rewrite H|].
  destruct (notebook_run_returns sys (py "/work/lessons/intro.ipynb")
              example_world (snd run) failing_document
              [mkOutput (py "error")
                 [py "java.lang.RuntimeException: boom"; py "  at cmd3"]] H)
    as [w1 [fd [temp_path [fs [Henter [Hmk [Hchild [Hread [_ Hcalls]]]]]]]]].
  exists w1, fd, temp_path, fs. cbv zeta.
  assert (Hw1 : w1 = mkWorld (py "/work/lessons") (files example_world) [] [] []).
  { destruct Henter as [[Hlen _] | [_ [c [Hc ->]]]].
    - vm_compute in Hlen. discriminate Hlen.
    - vm_compute in Hc. injection Hc as <-. reflexivity. }
  split; [exact Hw1|]. split; [exact Hmk|]. split; [exact Hchild|].
  split; [exact Hread | exact Hcalls].
Defined.

Lemma notebook_run_bare_name_directory_witness :
  let sys := example_system example_dirs (Exited 1) None in
  cwd (snd (_notebook_run sys (py "1_intro_to_scala.ipynb") example_world))
  = cwd example_world.
Proof.
  intro sys.
  apply (notebook_run_bare_name_directory sys (py "1_intro_to_scala.ipynb")
           example_world _
           (fst (_notebook_run sys (py "1_intro_to_scala.ipynb") example_world))).
  - intro H. vm_compute in H.
    repeat (destruct H as [H|H]; [discriminate H|]). exact H.
  - intro c. reflexivity.
  - apply surjective_pairing.
Defined.



End NotebookRunExamples.

Section BareArguments.

Import Runtest.

Lemma skipn_rfind1_no_sep (p : str) : ~ In sep (skipn (rfind1 p) p).
Proof.
  induction p as [|c q IH]; [now simpl|].
  cbn [rfind1]. destruct (rfind1 q) as [|k].
  - destruct (N.eqb_spec c sep) as [->|Hc]; cbn [skipn] in *; [exact IH|].
    intros [H|H]; [now apply Hc | now apply IH].
  - exact IH.
Qed.

Lemma rfind1_zero (p : str) : rfind1 p = 0 -> ~ In sep p.
Proof.
  induction p as [|c q IH]; [now simpl|].
  cbn [rfind1]. destruct (rfind1 q) as [|k]; [|discriminate].
  destruct (N.eqb_spec c sep) as [->|Hc]; [discriminate|].
  intros _ [H|H]; [now apply Hc | now apply IH].
Qed.

Lemma lstrip_sep_nil (l : str) : lstrip_sep l = [] -> Forall (fun c => c = sep) l.
Proof.
  induction l as [|c l IH]; simpl; [constructor|].
  destruct (N.eqb_spec c sep) as [->|Hc]; [|discriminate].
  intro H. constructor; [reflexivity | now apply IH].
Qed.

Lemma all_sep_repeat (l : str) :
  Forall (fun c => c = sep) l -> l = repeat sep (length l).
Proof. induction 1 as [|c l -> _ IH]; simpl; [reflexivity | now f_equal]. Qed.

Lemma rstrip_sep_nil (h : str) : rstrip_sep h = [] -> h = repeat sep (length h).
Proof.
  unfold rstrip_sep. intro H. apply all_sep_repeat.
  assert (Hl : lstrip_sep (rev h) = []).
  { rewrite <- (rev_involutive (lstrip_sep (rev h))), H. reflexivity. }
  apply lstrip_sep_nil in Hl. rewrite Forall_forall in *. intros c Hc.
  apply Hl. now apply -> in_rev.
Qed.

Lemma notebook_argument_no_sep (path : str) : ~ In sep (notebook_argument path).
Proof.
  unfold notebook_argument, os_path_split. cbv zeta.
  set (head := firstn (rfind1 path) path).
  assert (Hempty : length head = 0 -> ~ In sep path).
  { intro H. apply rfind1_zero. unfold head in H. rewrite length_firstn in H.
    destruct path as [|c q]; [reflexivity|]. simpl length in H. lia. }
  destruct (negb (length head =? 0) &&
            negb (str_eqb head (repeat sep (length head)))) eqn:Econd.
  - destruct (Nat.ltb_spec 0 (length (rstrip_sep head))) as [_|Hlen];
      [apply skipn_rfind1_no_sep|].
    exfalso. apply andb_true_iff in Econd as [_ Hne].
    apply negb_true_iff, str_eqb_neq in Hne. apply Hne, rstrip_sep_nil.
    destruct (rstrip_sep head); [reflexivity | simpl in Hlen; lia].
  - destruct (Nat.ltb_spec 0 (length head)) as [_|Hlen];
      [apply skipn_rfind1_no_sep | apply Hempty; lia].
Qed.

Lemma notebook_run_calls (sys : system) (path : str) (w w' : world)
    (r : result (notebook_node * list output)) :
  _notebook_run sys path w = (r, w') ->
  calls w' = calls w \/
  exists temp_path,
    calls w' =
    calls w ++ [nbconvert_args (os_path_basename temp_path) (notebook_argument path)].
Proof.
  unfold _notebook_run, notebook_argument.
  destruct (os_path_split path) as [dirname basename].
  intro H. unfold_run. branch H; close_run H; try (now left);
    right; eexists; reflexivity.
Qed.

(** X11.  Every child process a run of [_notebook_run] starts is given
    bare file names, free of path separators, both for its output and
    for the notebook: the directory part of the path is entered, never
    passed on. *)
Theorem nbconvert_arguments_bare (sys : system) (path : str) (w w' : world)
    (r : result (notebook_node * list output)) (args : list str) :
  _notebook_run sys path w = (r, w') ->
  In args (calls w') ->
  In args (calls w) \/
  exists out nb,
    args = nbconvert_args out nb /\ ~ In sep out /\ ~ In sep nb.
Proof.
  intros H Hin. destruct (notebook_run_calls _ _ _ _ _ H) as [Hc | [temp Hc]];
    rewrite Hc in Hin; [now left|].
  apply in_app_or in Hin as [Hin | [<- | []]]; [now left|]. right.
  exists (os_path_basename temp), (notebook_argument path).
  split; [reflexivity|]. split.
  - apply skipn_rfind1_no_sep.
  - apply notebook_argument_no_sep.
Qed.

Lemma nbconvert_arguments_bare_witness :
  let sys := example_system example_dirs (Exited 0) (Some clean_document) in
  let run := _notebook_run sys (py "/work/lessons/intro.ipynb") example_world in
  exists out nb,
    nbconvert_args (py "tmpk3x9_2ab.ipynb") (py "intro.ipynb") = nbconvert_args out nb /\
    ~ In sep out /\ ~ In sep nb.
Proof.
  intros sys run.
  destruct (nbconvert_arguments_bare sys (py "/work/lessons/intro.ipynb")
              example_world (snd run) (fst run)
              (nbconvert_args (py "tmpk3x9_2ab.ipynb") (py "intro.ipynb")))
    as [[] | Hbare].
  - apply surjective_pairing.
  - vm_compute. left. reflexivity.
  - exact Hbare.
Defined.

End BareArguments.

(* ================================================================== *)
(** * Further properties of the batch run *)
(* ================================================================== *)

Section BatchOutcome.

Import Runtest.

Variable sys : system.

Lemma getitem_raises {V} (d : dict V) (k : str) (e : exn) :
  getitem d k = Raise e -> e = KeyError k /\ ~ In k (keys d).
Proof.
  induction d as [|[k' v] d IH]; simpl.
  - intro H. injection H as <-. tauto.
  - destruct (str_eqb k' k) eqn:E; [discriminate|].
    apply str_eqb_neq in E. intro H. destruct (IH H) as [-> Hnot].
    split; [reflexivity | tauto].
Qed.

Lemma notebook_run_raises (path : str) (w w' : world) (e : exn) :
  _notebook_run sys path w = (Raise e, w') ->
  e = OSError \/ (exists rc, rc <> 0%Z /\ e = CalledProcessError rc) \/
  e = ReadError.
Proof.
  unfold _notebook_run. destruct (os_path_split path) as [dirname basename].
  intro H. unfold_run. branch H; try discriminate H; injection H as <- <-;
    first [ now left | now right; right
          | right; left; eexists; split; [|reflexivity]; discriminate ].
Qed.

Lemma notebook_run_streams (path : str) (w w' : world)
    (r : result (notebook_node * list output)) :
  _notebook_run sys path w = (r, w') ->
  stdout w' = stdout w /\ stderr w' = stderr w.
Proof.
  unfold _notebook_run. destruct (os_path_split path) as [dirname basename].
  intro H. unfold_run. branch H; close_run H; now split.
Qed.

Lemma check_errors_true_silent (file_name : str) (expected : list str)
    (actual : list output) (printed : list line) :
  check_errors file_name expected actual = Return (true, printed) -> printed = [].
Proof.
  intro H. destruct (check_errors_tracebacks _ _ _ _ _ H) as [tbs Htb].
  rewrite (check_errors_report file_name _ _ _ Htb) in H.
  destruct (mismatches expected tbs); [now injection H as <- | discriminate].
Qed.

(** One turn of the loop: what it raises, and what it leaves of the
    streams when it returns. *)
Lemma run_one_outcome (n : str) (w w' : world) (r : result unit) :
  run_one sys n w = (r, w') ->
  match r with
  | Return _ => stdout w' = stdout w /\ stderr w' = stderr w
  | Raise e =>
      (e = KeyError n /\ ~ In n (keys notebooks)) \/
      e = OSError \/ (exists rc, rc <> 0%Z /\ e = CalledProcessError rc) \/
      e = ReadError \/ e = IndexError \/ e = AssertionError
  end.
Proof.
  unfold run_one, bind at 1.
  destruct (getitem notebooks n) as [expected|e0] eqn:Eget.
  - unfold bind at 1.
    destruct (_notebook_run sys n w) as [[[nb errors]|e1] w1] eqn:Erun.
    + destruct (notebook_run_streams _ _ _ _ Erun) as [Hout Herr].
      unfold bind. rewrite run_check_errors_world.
      destruct (check_errors n expected errors) as [[[|] printed]|e2] eqn:Echeck;
        intro H; close_run H.
      * apply check_errors_true_silent in Echeck. subst printed.
        now rewrite app_nil_r.
      * tauto.
      * destruct (check_errors_raise_cases _ _ _ _ Echeck) as [-> _]. tauto.
    + intro H; close_run H. apply notebook_run_raises in Erun. tauto.
  - intro H. injection H as <- <-. left. exact (getitem_raises _ _ _ Eget).
Qed.

Lemma for_notebooks_outcome (to_run : list str) (w w' : world) (r : result unit) :
  for_notebooks sys to_run w = (r, w') ->
  match r with
  | Return _ => stdout w' = stdout w /\ stderr w' = stderr w
  | Raise e =>
      (exists k, e = KeyError k /\ In k to_run /\ ~ In k (keys notebooks)) \/
      e = OSError \/ (exists rc, rc <> 0%Z /\ e = CalledProcessError rc) \/
      e = ReadError \/ e = IndexError \/ e = AssertionError
  end.
Proof.
  revert w; induction to_run as [|n rest IH]; intros w H; simpl in H.
  - injection H as <- <-. now split.
  - unfold bind in H. destruct (run_one sys n w) as [[[]|e] w1] eqn:Eone;
      apply run_one_outcome in Eone.
    + apply IH in H. destruct r as [[]|e]; cbv beta iota in H |- *.
      * destruct Eone as [E1 E2]. destruct H as [H1 H2]. split; congruence.
      * destruct H as [[k [-> [Hin Hk]]] | H]; [|tauto].
        left. exists k. split; [reflexivity|]. split; [now right | assumption].
    + injection H as <- <-. cbv beta iota in Eone |- *.
      destruct Eone as [[-> Hk] | Hother]; [|tauto].
      left. exists n. split; [reflexivity|]. split; [now left | assumption].
Qed.

Lemma notebooks_to_run_outcome (argv : list str) (w w' : world)
    (r : result (list str)) :
  notebooks_to_run argv w = (r, w') ->
  (1 < length argv /\ nth 1 argv [] = help_flag /\ r = Raise (SystemExit 0)) \/
  (w' = w /\
   r = Return (if 1 <? length argv then skipn 1 argv else sorted (keys notebooks)) /\
   ~ (1 < length argv /\ nth 1 argv [] = help_flag)).
Proof.
  unfold notebooks_to_run. destruct (Nat.ltb_spec 1 (length argv)) as [Hlen|Hlen].
  - destruct (str_eqb (nth 1 argv []) help_flag) eqn:E.
    + apply str_eqb_eq in E. intro H. unfold bind, print, raise in H.
      injection H as <- <-. now left.
    + apply str_eqb_neq in E. intro H. injection H as <- <-. right. tauto.
  - intro H. injection H as <- <-. right.
    split; [reflexivity|]. split; [reflexivity|]. intros [Hc _]. lia.
Qed.

(** X12.  A batch run that returns has printed no diagnostic: the
    script has written nothing to [sys.stderr]. *)
Theorem batch_success_silent (argv : list str) (w w' : world) :
  main sys argv w = (Return tt, w') ->
  stderr w' = stderr w.
Proof.
  unfold main, bind.
  destruct (notebooks_to_run argv w) as [[to_run|e] w1] eqn:Esel; [|discriminate].
  destruct (notebooks_to_run_outcome _ _ _ _ Esel) as [[_ [_ Hr]] | [-> _]];
    [discriminate|].
  intro H. now apply for_notebooks_outcome in H.
Qed.

(** The exceptions a run of the model can end with; the list is that of
    the failures the embedding covers. *)
Lemma main_raises (argv : list str) (w w' : world) (e : exn) :
  main sys argv w = (Raise e, w') ->
  (e = SystemExit 0 /\ 1 < length argv /\ nth 1 argv [] = help_flag) \/
  (exists k, e = KeyError k /\ In k (skipn 1 argv) /\ ~ In k (keys notebooks)) \/
  e = OSError \/ (exists rc, rc <> 0%Z /\ e = CalledProcessError rc) \/
  e = ReadError \/ e = IndexError \/ e = AssertionError.
Proof.
  unfold main, bind.
  destruct (notebooks_to_run argv w) as [[to_run|e0] w1] eqn:Esel;
    destruct (notebooks_to_run_outcome _ _ _ _ Esel) as [[Hlen [Hflag Hr]] | [-> [Hr _]]];
    try discriminate.
  - intro H. apply for_notebooks_outcome in H.
    destruct H as [[k [-> [Hin Hk]]] | H]; [|tauto].
    right. left. exists k. split; [reflexivity|]. split; [|assumption].
    injection Hr as ->. destruct (1 <? length argv); [assumption|].
    exfalso. apply Hk. eapply Permutation_in; [|exact Hin].
    apply Permutation_sym, StrSort.Permuted_sort.
  - intro H. injection H as <- <-. injection Hr as ->. now left.
Qed.


(** X14.  The exit status of a batch run is 0 exactly when the run
    returned, every requested notebook having passed, or [--help] was its
    first argument. *)
Theorem batch_exit_status_zero (argv : list str) (w : world) :
  exit_status (fst (main sys argv w)) = 0%Z <->
  fst (main sys argv w) = Return tt \/
  (1 < length argv /\ nth 1 argv [] = help_flag).
Proof.
  destruct (main sys argv w) as [[[]|e] w'] eqn:Emain; simpl.
  - tauto.
  - split.
    + intro Hst. right. apply main_raises in Emain.
      destruct Emain as [[_ Hhelp] | Hother]; [exact Hhelp|].
      exfalso. destruct Hother as [[k [-> _]] | [-> | [[rc [_ ->]] | [-> | [-> | ->]]]]];
        discriminate Hst.
    + intros [H | [Hlen Hflag]]; [discriminate|].
      unfold main, bind in Emain.
      destruct (notebooks_to_run argv w) as [[to_run|e0] w1] eqn:Esel;
        destruct (notebooks_to_run_outcome _ _ _ _ Esel) as [[_ [_ Hr]] | [_ [_ Hno]]];
        try discriminate; try tauto.
      injection Emain as <- _. now injection Hr as ->.
Qed.

End BatchOutcome.

Section BatchDefaults.

Import Runtest.

(** X15.  Run without arguments, the batch runner never fails a lookup:
    every identifier it takes from the sorted catalog is a key of the
    catalog. *)
Theorem default_run_no_KeyError (sys : system) (argv : list str) (w w' : world)
    (e : exn) :
  length argv <= 1 ->
  main sys argv w = (Raise e, w') ->
  forall k, e <> KeyError k.
Proof.
  intros Hlen H k ->. apply main_raises in H.
  destruct H as [[Hexit _] | [[k' [_ [Hin _]]] | H]].
  - discriminate Hexit.
  - destruct argv as [|prog [|a rest]]; simpl in Hin, Hlen; try contradiction. lia.
  - destruct H as [H | [[rc [_ H]] | [H | [H | H]]]]; discriminate H.
Qed.

Lemma default_run_no_KeyError_witness :
  let sys := example_system example_dirs (Exited 1) None in
  fst (main sys [py "runtest.py"] example_world) = Raise (CalledProcessError 1) /\
  forall k, CalledProcessError 1 <> KeyError k.
Proof.
  intro sys.
  assert (H : main sys [py "runtest.py"] example_world =
              (Raise (CalledProcessError 1),
               snd (main sys [py "runtest.py"] example_world)))
    by (vm_compute; reflexivity).
  split; [now rewrite H|].
  apply (default_run_no_KeyError sys [py "runtest.py"] example_world
           (snd (main sys [py "runtest.py"] example_world))).
  - simpl. lia.
  - exact H.
Defined.

Lemma batch_success_silent_witness :
  let sys := example_system example_dirs (Exited 0) (Some clean_document) in
  let argv :=
    [py "runtest.py"; py "1_intro_to_scala.ipynb"; py "2.6_chiseltest.ipynb"] in
  fst (main sys argv example_world) = Return tt /\
  stderr (snd (main sys argv example_world)) = stderr example_world.
Proof.
  intros sys argv.
  assert (H : main sys argv example_world =
              (Return tt, snd (main sys argv example_world)))
    by (vm_compute; reflexivity).
  split; [now rewrite H|].
  exact (batch_success_silent sys argv example_world
           (snd (main sys argv example_world)) H).
Defined.

End BatchDefaults.

(* ================================================================== *)
(** * Further properties of the single-notebook executor *)
(* ================================================================== *)

Section SingleNotebookStatus.

Import RunNotebook.

Variable check_call : list str -> call_outcome.

(** X16.  The executor exits with status 0 exactly when it was given a
    notebook argument and the child process run on it returned 0: a
    missing argument, a non-zero return code and a child that could not
    be started all give a non-zero status. *)
Theorem run_notebook_exit_zero_iff (argv : list str) :
  exit_status (fst (main check_call argv)) = 0%Z <->
  2 <= length argv /\ check_call (nbconvert_args (nth 1 argv [])) = Exited 0.
Proof.
  unfold main. cbv zeta. destruct (Nat.ltb_spec (length argv) 2) as [Hlt|Hge].
  - simpl. split; [discriminate | intros [H _]; lia].
  - destruct (check_call (nbconvert_args (nth 1 argv []))) as [[|rc|rc]|]; simpl;
      split; try discriminate; try tauto; intros [_ H]; discriminate H.
Qed.

End SingleNotebookStatus.

Section CleanupExample.

Import Runtest.


End CleanupExample.
